(** * Git LFS pointer files: a model of [git_lfs/pointer.py]

    The development embeds the pointer-file parser ([Pointer.from_file]),
    the serializer ([Pointer.__bytes__]) and the fixed-value digest object
    ([SHA256]) as executable Rocq functions and proves the properties the
    specification states about them.

    Conventions.  Python [bytes] are Rocq [string]s (sequences of 8-bit
    characters).  Python [str] is a list of Unicode code points.  A Python
    [dict] with [bytes] keys is a [gmap string string]: the code only looks
    keys up, stores into them and iterates over [sorted(items())], so the
    insertion order is not observable.  Exceptions are values of [exn] and a
    computation that may raise has type [res A].  Python integers are [Z]
    (no limit on the number of decimal digits is modelled). *)

From Stdlib Require Import ZArith NArith Ascii String List Lia.
From Stdlib Require Import Decimal DecimalString DecimalPos DecimalN DecimalZ.
From stdpp Require Import base option list strings gmap sorting.

Local Open Scope Z_scope.

(** ** Byte strings *)

Abbreviation bytes := string.

(** The line terminator [b'\n']. *)
Definition NL : ascii := "010"%char.
(** The separators [b' '] and [b':']. *)
Definition SP : ascii := " "%char.
Definition COLON : ascii := ":"%char.

Module Bytes.

(** [c in s] for a one-byte [c]. *)
Fixpoint contains (c : ascii) (s : bytes) : bool :=
  match s with
  | EmptyString => false
  | String a s' => if Ascii.eqb a c then true else contains c s'
  end.

(** [s.endswith(b'\n')]. *)
Fixpoint endswith_nl (s : bytes) : bool :=
  match s with
  | EmptyString => false
  | String a EmptyString => Ascii.eqb a NL
  | String _ s' => endswith_nl s'
  end.

(** [s.rstrip(b'\n')]: every trailing terminator is removed. *)
Fixpoint rstrip_nl (s : bytes) : bytes :=
  match s with
  | EmptyString => EmptyString
  | String a s' =>
      match rstrip_nl s' with
      | EmptyString => if Ascii.eqb a NL then EmptyString else String a EmptyString
      | r => String a r
      end
  end.

(** The first occurrence of [sep] cuts [s] in two; [None] when [sep] does not
    occur. *)
Fixpoint partition (sep : ascii) (s : bytes) : option (bytes * bytes) :=
  match s with
  | EmptyString => None
  | String a s' =>
      if Ascii.eqb a sep then Some (EmptyString, s')
      else match partition sep s' with
           | Some (l, r) => Some (String a l, r)
           | None => None
           end
  end.

(** [s.split(sep, 1)]: a list of one or two pieces. *)
Definition split1 (sep : ascii) (s : bytes) : list bytes :=
  match partition sep s with
  | Some (l, r) => [l; r]
  | None => [s]
  end.

(** [f.readline(n)] on a stream whose unread content is [s]: the line read
    (terminator included, at most [n] bytes) and the content left unread. *)
Fixpoint readline (n : nat) (s : bytes) : bytes * bytes :=
  match n with
  | O => (EmptyString, s)
  | S n' =>
      match s with
      | EmptyString => (EmptyString, EmptyString)
      | String a s' =>
          if Ascii.eqb a NL then (String a EmptyString, s')
          else let '(l, r) := readline n' s' in (String a l, r)
      end
  end.

(** [for line in f]: the unread content [s] cut after every terminator; the
    terminators stay on the lines, the last line may lack one. *)
Fixpoint readlines (s : bytes) : list bytes :=
  match s with
  | EmptyString => []
  | String a s' =>
      if Ascii.eqb a NL then String a EmptyString :: readlines s'
      else match readlines s' with
           | [] => [String a EmptyString]
           | l :: ls => String a l :: ls
           end
  end.

(** [sep.join(l)] for a one-byte separator. *)
Fixpoint join (sep : ascii) (l : list bytes) : bytes :=
  match l with
  | [] => EmptyString
  | [x] => x
  | x :: l' => x +:+ String sep (join sep l')
  end.

(** [s.isdigit()]: non-empty and made of ASCII decimal digits only. *)
Definition is_digit (a : ascii) : bool :=
  match Ascii.is_nat a with Some _ => true | None => false end.

Fixpoint all_digits (s : bytes) : bool :=
  match s with
  | EmptyString => true
  | String a s' => is_digit a && all_digits s'
  end.

Definition isdigit (s : bytes) : bool :=
  match s with
  | EmptyString => false
  | _ => all_digits s
  end.

(** [int(s)] for [s] accepted by [isdigit]; [0] stands for the inputs the
    guard excludes. *)
Definition int (s : bytes) : Z :=
  match NilZero.uint_of_string s with
  | Some d => Z.of_N (N.of_uint d)
  | None => 0
  end.

(** [b'%d' % z]. *)
Definition format_d (z : Z) : bytes := NilZero.string_of_int (Z.to_int z).

(** Every line followed by a terminator: how the pointer files of the
    examples are written down. *)
Fixpoint unlines (l : list bytes) : bytes :=
  match l with
  | [] => EmptyString
  | x :: l' => x +:+ String NL (unlines l')
  end.

End Bytes.


(** ** Text strings *)

(** A Python [str]: its code points. *)
Definition str := list N.

(** ** Exceptions *)

(** The exception classes the module raises or lets escape.  The two
    classes of the module carry their message, split into the literal and
    the value formatted into it.  [BinasciiError] ([binascii.Error]),
    [UnicodeEncodeError] and [UnicodeDecodeError] are subclasses of
    [ValueError] in Python. *)
Inductive exn : Type :=
| VersionUnsupportedException (msg : string)
| PointerFormatException (msg : string) (arg : option bytes)
| TypeError
| ValueError
| BinasciiError
| UnicodeEncodeError
| UnicodeDecodeError
| KeyError (key : bytes)
| AttributeError.

(** [isinstance(e, ValueError)]. *)
Definition is_ValueError (e : exn) : bool :=
  match e with
  | ValueError | BinasciiError | UnicodeEncodeError | UnicodeDecodeError => true
  | _ => false
  end.

Definition is_PointerFormatException (e : exn) : bool :=
  match e with PointerFormatException _ _ => true | _ => false end.

Definition is_VersionUnsupportedException (e : exn) : bool :=
  match e with VersionUnsupportedException _ => true | _ => false end.

(** A computation that returns a value or raises. *)
Inductive res (A : Type) : Type :=
| Ok (a : A)
| Raise (e : exn).
Arguments Ok {A} a.
Arguments Raise {A} e.

#[global] Instance res_ret : MRet res := fun A a => Ok a.
#[global] Instance res_bind : MBind res := fun A B f m =>
  match m with
  | Ok a => f a
  | Raise e => Raise e
  end.

(** [a, b = l]: unpacking into two targets. *)
Definition unpack2 (l : list bytes) : res (bytes * bytes) :=
  match l with
  | [a; b] => Ok (a, b)
  | _ => Raise ValueError
  end.

(** [d[k]] on a dict. *)
Definition getitem {V} (d : gmap string V) (k : bytes) : res V :=
  match d !! k with
  | Some v => Ok v
  | None => Raise (KeyError k)
  end.

(** The values the code passes around without a static type. *)
Inductive pyobj : Type :=
| PyBool (b : bool)
| PyStr (s : str)
| PyBytes (b : bytes)
| PyInt (z : Z)
| PyExc (e : exn).

(** Truth value of an object ([not x] is its negation): an exception
    instance defines neither [__bool__] nor [__len__] and is true. *)
Definition truthy (o : pyobj) : bool :=
  match o with
  | PyBool b => b
  | PyStr s => negb (bool_decide (s = []))
  | PyBytes b => negb (bool_decide (b = EmptyString))
  | PyInt z => negb (z =? 0)
  | PyExc _ => true
  end.

Module Str.

(** The [str] literal with the characters of an ASCII literal. *)
Fixpoint of_ascii (s : string) : str :=
  match s with
  | EmptyString => []
  | String a s' => N_of_ascii a :: of_ascii s'
  end.

(** [s.encode('ascii')]. *)
Fixpoint encode_ascii (s : str) : res bytes :=
  match s with
  | [] => Ok EmptyString
  | c :: s' =>
      if (c <? 128)%N
      then b ← encode_ascii s'; Ok (String (ascii_of_N c) b)
      else Raise UnicodeEncodeError
  end.

(** [b.decode('ascii')]. *)
Fixpoint decode_ascii (b : bytes) : res str :=
  match b with
  | EmptyString => Ok []
  | String a b' =>
      if (N_of_ascii a <? 128)%N
      then s ← decode_ascii b'; Ok (N_of_ascii a :: s)
      else Raise UnicodeDecodeError
  end.

End Str.

(** ** [binascii.unhexlify] *)

Definition hex_val (a : ascii) : option N :=
  let n := N_of_ascii a in
  if ((48 <=? n) && (n <=? 57))%N then Some (n - 48)%N
  else if ((97 <=? n) && (n <=? 102))%N then Some (n - 87)%N
  else if ((65 <=? n) && (n <=? 70))%N then Some (n - 55)%N
  else None.

Definition is_hex (a : ascii) : bool :=
  match hex_val a with Some _ => true | None => false end.

Fixpoint all_hex (s : bytes) : bool :=
  match s with
  | EmptyString => true
  | String a s' => is_hex a && all_hex s'
  end.

(** Two hex digits give one byte; an odd length or a byte that is not a hex
    digit raises [binascii.Error]. *)
Fixpoint unhexlify (s : bytes) : res bytes :=
  match s with
  | EmptyString => Ok EmptyString
  | String _ EmptyString => Raise BinasciiError
  | String a (String b s') =>
      match hex_val a, hex_val b with
      | Some x, Some y =>
          r ← unhexlify s'; Ok (String (ascii_of_N (16 * x + y)) r)
      | _, _ => Raise BinasciiError
      end
  end.

(** ** The module's constants *)

Module Key.
Definition VERSION : bytes := "version".
Definition OID : bytes := "oid".
Definition SIZE : bytes := "size".
End Key.

Module Version.

Inductive t : Type := V1 | PRE | ALPHA.

Definition value (v : t) : bytes :=
  match v with
  | V1 => "https://git-lfs.github.com/spec/v1"
  | PRE => "https://hawser.github.com/spec/v1"
  | ALPHA => "http://git-media.io/v/2"
  end.

(** The member's [name]. *)
Definition name (v : t) : str :=
  match v with
  | V1 => Str.of_ascii "V1"
  | PRE => Str.of_ascii "PRE"
  | ALPHA => Str.of_ascii "ALPHA"
  end.

(** [cls.__members__.values()], in definition order. *)
Definition members : list t := [V1; PRE; ALPHA].

(** [line in [v.value for v in cls.__members__.values()]]. *)
Definition verify (line : bytes) : bool :=
  bool_decide (line ∈ map value members).

End Version.

(** ** The digest object *)

Module SHA256.

Record t : Type := mk { _hexsha : bytes; _sha : bytes }.

Definition digest_name : str := Str.of_ascii "sha256".

(** [SHA256(hexsha)]: text is encoded first, anything that is not [bytes]
    then is a [TypeError], a length other than [256 / 4] a [ValueError], and
    [binascii.unhexlify] raises on what is not hexadecimal. *)
Definition __init__ (hexsha : pyobj) : res t :=
  hexsha ← match hexsha with
           | PyStr s => b ← Str.encode_ascii s; Ok (PyBytes b)
           | o => Ok o
           end;
  match hexsha with
  | PyBytes b =>
      if negb (String.length b =? 256 / 4)%nat then Raise ValueError
      else sha ← unhexlify b; Ok {| _hexsha := b; _sha := sha |}
  | _ => Raise TypeError
  end.

Definition digest (self : t) : bytes := _sha self.

Definition hexdigest (self : t) : res str := Str.decode_ascii (_hexsha self).

(** [repr(self)]: ["<%s %s>" % (self.__class__.__name__, self.hexdigest()[0:7])]. *)
Definition __repr__ (self : t) : res str :=
  hex ← hexdigest self;
  Ok (Str.of_ascii "<" ++ Str.of_ascii "SHA256" ++ Str.of_ascii " "
      ++ take 7 hex ++ Str.of_ascii ">").

End SHA256.

(** [supported_digests = {b'sha256': SHA256}]. *)
Definition supported_digests : gmap string (pyobj → res SHA256.t) :=
  {[ "sha256" := SHA256.__init__ ]}.

(** ** [sorted] on the items of a dict *)

(** Tuples compare lexicographically, [bytes] compare bytewise. *)
Definition item_le (x y : bytes * bytes) : Prop :=
  if decide (x.1 = y.1) then String.le x.2 y.2 else String.le x.1 y.1.

#[global] Instance item_le_dec : RelDecision item_le.
Proof. intros x y. unfold item_le. destruct (decide (x.1 = y.1)); apply _. Defined.

Definition sorted (l : list (bytes * bytes)) : list (bytes * bytes) :=
  merge_sort item_le l.

(** ** The pointer record *)

Module Pointer.

Record t : Type := mk {
  _attrs : gmap string string;
  oid : option SHA256.t;
  size : Z
}.

(** The class attribute [version = Version.V1]; no instance overrides it. *)
Definition version : Version.t := Version.V1.

(** [Pointer()]. *)
Definition __init__ : t := {| _attrs := ∅; oid := None; size := 0 |}.

(** [_verify_version(line)].  The last statement RETURNS the exception
    object, it does not raise it. *)
Definition _verify_version (line : bytes) : res pyobj :=
  let missing := Ok (PyExc (PointerFormatException "Missing version" None)) in
  if Bytes.endswith_nl line && Bytes.contains SP line then
    '(key, value) ← unpack2 (Bytes.split1 SP (Bytes.rstrip_nl line));
    if decide (key = Key.VERSION) then Ok (PyBool (Version.verify value))
    else missing
  else missing.

(** The loop [for line in f: ...; attrs[key] = value]. *)
Fixpoint read_attrs (lines : list bytes) (attrs : gmap string string)
  : res (gmap string string) :=
  match lines with
  | [] => Ok attrs
  | line :: lines' =>
      '(key, value) ← unpack2 (Bytes.split1 SP (Bytes.rstrip_nl line));
      read_attrs lines' (<[key := value]> attrs)
  end.

(** [from_file(f)], [f] being the unread content of the stream. *)
Definition from_file (f : bytes) : res t :=
  let '(line, f) := Bytes.readline 256 f in
  if negb (truthy (PyBytes line)) then Ok __init__ else
  ok ← _verify_version line;
  if negb (truthy ok) then Raise (VersionUnsupportedException "Invalid version") else
  attrs ← read_attrs (Bytes.readlines f) ∅;
  '(oid_type, oid_hash) ← (v ← getitem attrs Key.OID; unpack2 (Bytes.split1 COLON v));
  if negb (bool_decide (is_Some (supported_digests !! oid_type))) then
    Raise (PointerFormatException "Unsupported oid type %s" (Some oid_type))
  else
  oid ← (ctor ← getitem supported_digests oid_type; ctor (PyBytes oid_hash));
  sz ← getitem attrs Key.SIZE;
  if negb (Bytes.isdigit sz) then
    Raise (PointerFormatException "Expected integer size, got %s" (Some sz))
  else
  sz ← getitem attrs Key.SIZE;
  Ok {| _attrs := attrs; oid := Some oid; size := Bytes.int sz |}.

(** [from_bytes(b)]: the same on [BytesIO(b)]. *)
Definition from_bytes (b : bytes) : res t := from_file b.

(** [self.__bytes__()]: the record after the two stores into [_attrs], and
    the bytes returned. *)
Definition __bytes__ (self : t) : res (t * bytes) :=
  let self :=
    {| _attrs := <[Key.SIZE := Bytes.format_d (size self)]> (_attrs self);
       oid := oid self; size := size self |} in
  o ← match oid self with Some o => Ok o | None => Raise AttributeError end;
  hex ← SHA256.hexdigest o;
  v ← Str.encode_ascii (SHA256.digest_name ++ [N_of_ascii COLON] ++ hex);
  let self :=
    {| _attrs := <[Key.OID := v]> (_attrs self);
       oid := oid self; size := size self |} in
  let attrs := (Key.VERSION, Version.value version) :: sorted (map_to_list (_attrs self)) in
  Ok (self, Bytes.join NL (map (fun kv => Bytes.join SP [kv.1; kv.2]) attrs)
            +:+ String NL EmptyString).

(** [bytes(self)]. *)
Definition to_bytes (self : t) : res bytes :=
  r ← __bytes__ self; Ok r.2.

(** [repr(self)]: the digest is shown only when the size is non-zero;
    ["%s" % self.size] is the decimal text of the integer. *)
Definition __repr__ (self : t) : res str :=
  if truthy (PyInt (size self)) then
    o ← match oid self with Some o => Ok o | None => Raise AttributeError end;
    hex ← SHA256.hexdigest o;
    Ok (Str.of_ascii "<" ++ Str.of_ascii "Pointer" ++ Str.of_ascii " "
        ++ Version.name version ++ Str.of_ascii " "
        ++ take 7 hex ++ Str.of_ascii " (size "
        ++ Str.of_ascii (Bytes.format_d (size self)) ++ Str.of_ascii ")>")
  else
    Ok (Str.of_ascii "<" ++ Str.of_ascii "Pointer" ++ Str.of_ascii " "
        ++ Version.name version ++ Str.of_ascii " (size "
        ++ Str.of_ascii (Bytes.format_d (size self)) ++ Str.of_ascii ")>").

End Pointer.

(** ** [utils.py] *)

(** The helpers of [utils.py] wrap operating-system calls.  The calls
    themselves ([os.remove], [os.link], [os.chdir], [os.getcwd],
    [os.path.abspath], [NamedTemporaryFile] and its [__exit__]) are
    parameters: functions on a state of the outside world that complete
    normally or raise.  The block under a [with] is a parameter too. *)
Module utils.

(** A file name as the [os] functions take and report it. *)
Inductive path : Type :=
| StrPath (s : str)
| BytesPath (b : bytes).

#[global] Instance path_eq_dec : EqDecision path.
Proof. solve_decision. Defined.

(** What the helpers see raised: an [OSError] (or a subclass) with its
    [errno] and [filename] attributes, either of which may be [None], or
    any other exception. *)
Inductive error : Type :=
| OSError (errno : option Z) (filename : option path)
| OtherError (e : exn).

(** How a block of statements ends. *)
Inductive completion : Type :=
| Normal
| Raises (e : error).

(** Truth value of the [filename] argument: [None] and the empty string are
    false. *)
Definition path_truthy (filename : option path) : bool :=
  match filename with
  | None => false
  | Some (StrPath s) => truthy (PyStr s)
  | Some (BytesPath b) => truthy (PyBytes b)
  end.

(** [with ignore_missing_file(filename): <body>], given how the body ends.
    The handler re-raises when
    [e.errno != 2 or filename and e.filename != filename]. *)
Definition ignore_missing_file (filename : option path) (body : completion)
  : completion :=
  match body with
  | Raises (OSError errno efilename) =>
      if negb (bool_decide (errno = Some 2))
         || (path_truthy filename && negb (bool_decide (efilename = filename)))
      then Raises (OSError errno efilename)
      else Normal
  | c => c
  end.

Section os.

(** The state of the outside world, and the calls on it. *)
Context {World : Type}.
Variable os_remove : path → World → completion * World.
Variable os_link : path → path → World → completion * World.
Variable os_getcwd : World → error + path.
Variable os_path_abspath : path → World → error + path.
Variable os_chdir : path → World → completion * World.

(** [force_link(source, link_name)]. *)
Definition force_link (source link_name : path) (w : World) : completion * World :=
  let '(c, w) := os_remove link_name w in
  match ignore_missing_file None c with
  | Raises e => (Raises e, w)
  | Normal => os_link source link_name w
  end.

(** [with in_dir(dirpath): <body>]. *)
Definition in_dir (dirpath : path) (body : World → completion * World)
    (w : World) : completion * World :=
  match os_getcwd w with
  | inl e => (Raises e, w)
  | inr cwd =>
      match os_path_abspath cwd w with
      | inl e => (Raises e, w)
      | inr prev =>
          let '(c, w) := os_chdir dirpath w in
          match c with
          | Raises e => (Raises e, w)
          | Normal =>
              let '(c, w) := body w in
              let '(c', w) := os_chdir prev w in
              match c' with
              | Raises e' => (Raises e', w)
              | Normal => (c, w)
              end
          end
      end
  end.

(** The temporary file object, its constructor and its [__exit__]. *)
Context {File : Type}.
Variable NamedTemporaryFile : World → (error + File) * World.
Variable file_exit : File → World → completion * World.

(** [with TempFile() as f: <body>], whatever the keyword arguments. *)
Definition TempFile (body : File → World → completion * World) (w : World)
  : completion * World :=
  match NamedTemporaryFile w with
  | (inl e, w) => (Raises e, w)
  | (inr f, w) =>
      let '(c, w) := body f w in
      let '(c', w) := file_exit f w in
      match ignore_missing_file None c' with
      | Raises e' => (Raises e', w)
      | Normal => (c, w)
      end
  end.

End os.

End utils.

(** * Vocabulary of the statements *)

(** ** Lines and items *)

(** The lines of a stream: a body without terminator, followed by a
    terminator except perhaps on the last line. *)
Definition is_line (l : bytes) : Prop :=
  ∃ body, Bytes.contains NL body = false ∧
          (l = body +:+ String NL EmptyString ∨ l = body).

(** Strict bytewise order on the keys of two items. *)
Definition key_lt (x y : bytes * bytes) : Prop := (x.1 ?= y.1)%string = Lt.

#[global] Instance key_lt_dec : RelDecision key_lt.
Proof. intros x y. unfold key_lt. apply _. Defined.

(** One output line: [b' '.join(kv)]. *)
Definition item_line (kv : bytes * bytes) : bytes := Bytes.join SP [kv.1; kv.2].

(** The first line [__bytes__] writes. *)
Definition version_item : bytes * bytes :=
  (Key.VERSION, Version.value Pointer.version).

(** What a key and a value read from an attribute line can be: the key has
    no space, neither has a terminator. *)
Definition wf_item (kv : bytes * bytes) : Prop :=
  Bytes.contains SP kv.1 = false ∧
  Bytes.contains NL kv.1 = false ∧
  Bytes.contains NL kv.2 = false.

(** A file in the output format: the version line, then one line per item. *)
Definition pointer_file (items : list (bytes * bytes)) : bytes :=
  Bytes.unlines (map item_line (version_item :: items)).

(** The lines [from_file] reads as attributes. *)
Definition attr_lines (f : bytes) : list bytes :=
  Bytes.readlines (Bytes.readline 256 f).2.

(** The key of an attribute line: what stands before its first space. *)
Definition line_key (l : bytes) : option bytes :=
  fst <$> Bytes.partition SP (Bytes.rstrip_nl l).

(** Its value: what stands after that space, terminator stripped. *)
Definition line_value (l : bytes) : option bytes :=
  snd <$> Bytes.partition SP (Bytes.rstrip_nl l).

(** [attrs[key] = value], as a function of the dict. *)
Definition store (m : gmap string string) (kv : bytes * bytes) : gmap string string :=
  <[kv.1 := kv.2]> m.

(** ** Records *)

(** The value [__bytes__] stores under [oid] for the hex digest [hex]. *)
Definition oid_value (hex : bytes) : bytes := "sha256:" +:+ hex.

(** The dict after the two stores of [__bytes__]. *)
Definition stored_attrs (p : Pointer.t) (hex : bytes) : gmap string string :=
  <[Key.OID := oid_value hex]>
    (<[Key.SIZE := Bytes.format_d (Pointer.size p)]> (Pointer._attrs p)).

(** The record [__bytes__] leaves behind: the attributes with the two stores
    done. *)
Definition stored (p : Pointer.t) (hex : bytes) : Pointer.t :=
  Pointer.mk (stored_attrs p hex) (Pointer.oid p) (Pointer.size p).

(** The non-empty inputs the parser accepts, and the record it builds. *)
Definition accepted (f : bytes) (p : Pointer.t) : Prop :=
  ∃ line rest ok attrs hex sha sz,
    Bytes.readline 256 f = (line, rest) ∧ line ≠ EmptyString ∧
    Pointer._verify_version line = Ok ok ∧ truthy ok = true ∧
    Pointer.read_attrs (Bytes.readlines rest) ∅ = Ok attrs ∧
    attrs !! Key.OID = Some (oid_value hex) ∧
    String.length hex = 64%nat ∧ unhexlify hex = Ok sha ∧
    attrs !! Key.SIZE = Some sz ∧ Bytes.isdigit sz = true ∧
    p = Pointer.mk attrs (Some (SHA256.mk hex sha)) (Bytes.int sz).

(** The inputs that get past the version check, and what is left to read. *)
Definition version_checked (f rest : bytes) : Prop :=
  ∃ line ok, Bytes.readline 256 f = (line, rest) ∧ line ≠ EmptyString ∧
             Pointer._verify_version line = Ok ok ∧ truthy ok = true.

(** [bytes(Pointer.from_bytes(b))]. *)
Definition reserialize (b : bytes) : res bytes :=
  p ← Pointer.from_bytes b; Pointer.to_bytes p.

(** The statements of [from_file] after the loop, as a function of the dict
    the loop built. *)
Definition finish_record (attrs : gmap string string) : res Pointer.t :=
  '(oid_type, oid_hash) ← (v ← getitem attrs Key.OID; unpack2 (Bytes.split1 COLON v));
  if negb (bool_decide (is_Some (supported_digests !! oid_type))) then
    Raise (PointerFormatException "Unsupported oid type %s" (Some oid_type))
  else
  oid ← (ctor ← getitem supported_digests oid_type; ctor (PyBytes oid_hash));
  sz ← getitem attrs Key.SIZE;
  if negb (Bytes.isdigit sz) then
    Raise (PointerFormatException "Expected integer size, got %s" (Some sz))
  else
  sz ← getitem attrs Key.SIZE;
  Ok (Pointer.mk attrs (Some oid) (Bytes.int sz)).

(** The value of the last of [lines] with the key [k], if any. *)
Definition last_value (k : bytes) (lines : list bytes) : option bytes :=
  foldl (fun acc l => if decide (line_key l = Some k) then line_value l else acc)
        None lines.

(** ** Digest arguments *)

(** The characters of a text or byte string. *)
Definition chars_of (arg : pyobj) : option str :=
  match arg with
  | PyStr s => Some s
  | PyBytes b => Some (Str.of_ascii b)
  | _ => None
  end.

(** A character that is a hex digit: [0-9], [a-f] or [A-F]. *)
Definition is_hex_char (c : N) : bool := (c <? 128)%N && is_hex (ascii_of_N c).

(** The failures of the constructor, which the specification calls
    [MalformedDigest]: [TypeError] for what is neither text nor bytes,
    [ValueError] (with its subclasses [binascii.Error] and
    [UnicodeEncodeError]) for the rest. *)
Definition MalformedDigest (e : exn) : bool :=
  match e with
  | TypeError => true
  | _ => is_ValueError e
  end.

(** ** Example data *)

(** The byte string [s * n]. *)
Fixpoint bytes_mul (s : bytes) (n : nat) : bytes :=
  match n with
  | O => EmptyString
  | S n' => s +:+ bytes_mul s n'
  end.

(** The pointer of the examples. *)
Definition example_hex : bytes :=
  "4d7a214614ab2935c943f9e0ff69d22eadbb8f32b1258daaa5e2ca24d17e2393".

(** [SHA256(example_hex)]. *)
Definition example_digest : SHA256.t :=
  SHA256.mk example_hex
    (match unhexlify example_hex with Ok b => b | Raise _ => EmptyString end).

(** A record with an [alpha]/[zeta] pair next to a stale [oid] entry. *)
Definition example_record : Pointer.t :=
  Pointer.mk (list_to_map [("zeta", "1"); ("oid", "stale"); ("alpha", "2")])
    (Some example_digest) 7.

(** A pointer file with the primary schema URI, keys in sorted order and
    every line of the form [key value], whose size is written with a
    leading zero. *)
Definition leading_zero_items : list (bytes * bytes) :=
  [("oid", "sha256:" +:+ example_hex); ("size", "012345")].

(** The same with a size in canonical form and a key that comes twice, in
    sorted order. *)
Definition repeated_key_items : list (bytes * bytes) :=
  [("a", "1"); ("a", "2"); ("oid", "sha256:" +:+ example_hex); ("size", "12345")].

(** A version line of 258 bytes: [version], a space, 249 times [a] and the
    terminator. *)
Definition long_version : bytes := bytes_mul "a" 249.

(** The file made of that line alone. *)
Definition long_version_file : bytes :=
  "version " +:+ long_version +:+ String NL EmptyString.

(** A file with a second, legacy, version line among its attributes. *)
Definition two_versions_file : bytes :=
  Bytes.unlines ["version https://git-lfs.github.com/spec/v1";
                 "oid sha256:" +:+ example_hex;
                 "size 12345";
                 "version https://hawser.github.com/spec/v1"].

(** A small world to run the helpers of [utils.py] in: the names that
    exist and the current directory.  Removing or closing a name that is not
    there is error 2, linking from a missing name too, linking onto an
    existing name is error 17. *)
Module toy.

Record world : Type := mk { names : list utils.path; cwd : utils.path }.

Definition drop (n : utils.path) (w : world) : world :=
  mk (filter (fun x => x ≠ n) (names w)) (cwd w).

Definition remove (n : utils.path) (w : world) : utils.completion * world :=
  if bool_decide (n ∈ names w) then (utils.Normal, drop n w)
  else (utils.Raises (utils.OSError (Some 2) (Some n)), w).

Definition link (src dst : utils.path) (w : world) : utils.completion * world :=
  if negb (bool_decide (src ∈ names w))
  then (utils.Raises (utils.OSError (Some 2) (Some src)), w)
  else if bool_decide (dst ∈ names w)
  then (utils.Raises (utils.OSError (Some 17) (Some src)), w)
  else (utils.Normal, mk (dst :: names w) (cwd w)).

Definition getcwd (w : world) : utils.error + utils.path := inr (cwd w).

Definition abspath (n : utils.path) (w : world) : utils.error + utils.path := inr n.

Definition chdir (n : utils.path) (w : world) : utils.completion * world :=
  (utils.Normal, mk (names w) n).

Definition tmp : utils.path := utils.StrPath (Str.of_ascii "/tmp/tmpfile").

Definition mktemp (w : world) : (utils.error + utils.path) * world :=
  (inr tmp, mk (tmp :: names w) (cwd w)).

End toy.

(** * Byte-string facts *)

Section bytes_facts.

Implicit Types (s t l r k v : bytes) (c a : ascii).

Lemma sapp_nil_l s : EmptyString +:+ s = s.
Proof. reflexivity. Qed.

Lemma sapp_cons a s t : String a s +:+ t = String a (s +:+ t).
Proof. reflexivity. Qed.

Lemma sapp_nil_r s : s +:+ EmptyString = s.
Proof. induction s as [|a s IH]; [done|]. by rewrite sapp_cons, IH. Qed.

Lemma sapp_assoc s t r : (s +:+ t) +:+ r = s +:+ t +:+ r.
Proof. induction s as [|a s IH]; [done|]. by rewrite !sapp_cons, IH. Qed.

Lemma contains_cons c a s :
  Bytes.contains c (String a s) = if Ascii.eqb a c then true else Bytes.contains c s.
Proof. reflexivity. Qed.

Lemma contains_app c s t :
  Bytes.contains c (s +:+ t) = Bytes.contains c s || Bytes.contains c t.
Proof.
  induction s as [|a s IH]; [done|].
  rewrite sapp_cons. simpl. by destruct (Ascii.eqb a c).
Qed.

Lemma partition_app c k v :
  Bytes.contains c k = false →
  Bytes.partition c (k +:+ String c v) = Some (k, v).
Proof.
  induction k as [|a k IH]; intros Hk.
  - rewrite sapp_nil_l. simpl. by rewrite Ascii.eqb_refl.
  - rewrite sapp_cons. simpl in *. destruct (Ascii.eqb a c); [done|].
    by rewrite IH.
Qed.

Lemma partition_Some c s l r :
  Bytes.partition c s = Some (l, r) →
  s = l +:+ String c r ∧ Bytes.contains c l = false.
Proof.
  revert l. induction s as [|a s IH]; intros l; simpl; [done|].
  destruct (Ascii.eqb_spec a c) as [->|Hne].
  - intros [= <- <-]. done.
  - destruct (Bytes.partition c s) as [[l' r']|]; [|done].
    intros [= <- <-]. destruct (IH l' eq_refl) as [-> Hl]. split; [done|].
    simpl. by destruct (Ascii.eqb_spec a c).
Qed.

Lemma partition_None c s :
  Bytes.partition c s = None ↔ Bytes.contains c s = false.
Proof.
  induction s as [|a s IH]; simpl; [done|].
  destruct (Ascii.eqb a c); [done|].
  destruct (Bytes.partition c s) as [[??]|]; [|tauto].
  split; [done|]. intros H. by apply IH in H.
Qed.

Lemma contains_partition c s :
  Bytes.contains c s = true → is_Some (Bytes.partition c s).
Proof.
  intros H. destruct (Bytes.partition c s) eqn:E; [by eexists|].
  apply partition_None in E. congruence.
Qed.

(** [rstrip] leaves a string without terminators alone and drops the
    terminator of a line. *)
Lemma rstrip_nl_id s : Bytes.contains NL s = false → Bytes.rstrip_nl s = s.
Proof.
  induction s as [|a s IH]; simpl; [done|].
  destruct (Ascii.eqb a NL); [done|]. intros H. rewrite IH by done.
  by destruct s.
Qed.

Lemma rstrip_nl_line s :
  Bytes.contains NL s = false →
  Bytes.rstrip_nl (s +:+ String NL EmptyString) = s.
Proof.
  induction s as [|a s IH]; [done|].
  rewrite sapp_cons. simpl. destruct (Ascii.eqb a NL) eqn:E; [done|].
  intros H. rewrite IH by done. by destruct s.
Qed.

Lemma contains_rstrip_nl c s :
  Bytes.contains c (Bytes.rstrip_nl s) = true → Bytes.contains c s = true.
Proof.
  induction s as [|a s IH]; simpl; [done|].
  destruct (Bytes.rstrip_nl s) as [|b r] eqn:E.
  - destruct (Ascii.eqb a NL); simpl; [done|].
    by destruct (Ascii.eqb a c).
  - simpl in *. destruct (Ascii.eqb a c); [done|]. exact IH.
Qed.

Lemma contains_SP_rstrip_nl s :
  Bytes.contains SP s = true → Bytes.contains SP (Bytes.rstrip_nl s) = true.
Proof.
  induction s as [|a s IH]; simpl; [done|].
  destruct (Ascii.eqb_spec a SP) as [->|Hne].
  - intros _. destruct (Bytes.rstrip_nl s); done.
  - intros H. specialize (IH H).
    destruct (Bytes.rstrip_nl s) as [|b r]; [done|].
    simpl in *. by destruct (Ascii.eqb a SP).
Qed.

Lemma readlines_is_line s : Forall is_line (Bytes.readlines s).
Proof.
  induction s as [|a s IH]; simpl; [constructor|].
  destruct (Ascii.eqb_spec a NL) as [->|Hne].
  - constructor; [|done]. exists EmptyString. split; [done|]. by left.
  - assert (Ha : Ascii.eqb a NL = false) by by apply Ascii.eqb_neq.
    destruct (Bytes.readlines s) as [|l ls].
    + constructor; [|done]. exists (String a EmptyString). simpl. rewrite Ha.
      split; [done|]. by right.
    + inversion IH as [|?? (body & Hb & Hl) Hls]; subst. constructor; [|done].
      exists (String a body). simpl. rewrite Ha. split; [done|].
      destruct Hl as [->| ->]; [by left|by right].
Qed.

Lemma is_line_rstrip l :
  is_line l → Bytes.contains NL (Bytes.rstrip_nl l) = false.
Proof.
  intros (body & Hb & [->| ->]).
  - by rewrite rstrip_nl_line.
  - by rewrite rstrip_nl_id.
Qed.

Lemma readlines_app_line body rest :
  Bytes.contains NL body = false →
  Bytes.readlines (body +:+ String NL rest)
  = (body +:+ String NL EmptyString) :: Bytes.readlines rest.
Proof.
  induction body as [|a body IH]; intros H.
  - done.
  - rewrite !sapp_cons. simpl in *. destruct (Ascii.eqb a NL); [done|].
    by rewrite IH.
Qed.

Lemma readline_app_line n body rest :
  Bytes.contains NL body = false →
  (String.length body < n)%nat →
  Bytes.readline n (body +:+ String NL rest)
  = (body +:+ String NL EmptyString, rest).
Proof.
  revert n. induction body as [|a body IH]; intros n H Hn.
  - destruct n; [simpl in Hn; lia|]. done.
  - destruct n; [simpl in Hn; lia|]. rewrite !sapp_cons. simpl in *.
    destruct (Ascii.eqb a NL); [done|]. rewrite IH by (done || lia). done.
Qed.

Lemma readline_nonempty n s :
  (0 < n)%nat → s ≠ EmptyString → (Bytes.readline n s).1 ≠ EmptyString.
Proof.
  intros Hn Hs. destruct n; [lia|]. destruct s as [|a s]; [done|]. simpl.
  destruct (Ascii.eqb a NL); [done|]. by destruct (Bytes.readline n s).
Qed.

Lemma endswith_nl_app s : Bytes.endswith_nl (s +:+ String NL EmptyString) = true.
Proof.
  induction s as [|a s IH]; [done|]. rewrite sapp_cons. simpl.
  rewrite IH. destruct s; done.
Qed.

Lemma join_unlines (ls : list bytes) :
  ls ≠ [] →
  Bytes.join NL ls +:+ String NL EmptyString = Bytes.unlines ls.
Proof.
  induction ls as [|x ls IH]; [done|]. intros _.
  destruct ls as [|y ls].
  - done.
  - change (Bytes.join NL (x :: y :: ls)) with (x +:+ String NL (Bytes.join NL (y :: ls))).
    rewrite sapp_assoc, sapp_cons, IH by done. done.
Qed.

End bytes_facts.

(** * Text, hexadecimal and decimal facts *)

Section codec_facts.

Implicit Types (b s : bytes) (a : ascii) (z : Z).

Lemma is_hex_lt_128 a : is_hex a = true → (N_of_ascii a <? 128)%N = true.
Proof.
  unfold is_hex, hex_val. intros H. apply N.ltb_lt.
  destruct ((48 <=? N_of_ascii a) && (N_of_ascii a <=? 57))%N eqn:E1.
  { apply andb_true_iff in E1 as [_ ?%N.leb_le]. lia. }
  destruct ((97 <=? N_of_ascii a) && (N_of_ascii a <=? 102))%N eqn:E2.
  { apply andb_true_iff in E2 as [_ ?%N.leb_le]. lia. }
  destruct ((65 <=? N_of_ascii a) && (N_of_ascii a <=? 70))%N eqn:E3; [|done].
  apply andb_true_iff in E3 as [_ ?%N.leb_le]. lia.
Qed.

Lemma decode_all_hex b :
  all_hex b = true → Str.decode_ascii b = Ok (Str.of_ascii b).
Proof.
  induction b as [|a b IH]; simpl; [done|].
  intros [Ha Hb]%andb_true_iff. rewrite (is_hex_lt_128 a Ha), IH by done. done.
Qed.

Lemma encode_of_ascii b :
  Str.decode_ascii b = Ok (Str.of_ascii b) →
  Str.encode_ascii (Str.of_ascii b) = Ok b.
Proof.
  induction b as [|a b IH]; simpl; [done|].
  destruct (N_of_ascii a <? 128)%N; [|done].
  destruct (Str.decode_ascii b) as [s|e] eqn:E; [|done].
  intros [= ->]. rewrite IH by done. simpl. by rewrite ascii_N_embedding.
Qed.

Lemma decode_encode b (t : str) :
  Str.decode_ascii b = Ok t → Str.encode_ascii t = Ok b.
Proof.
  revert t. induction b as [|a b IH]; intros t; simpl.
  - by intros [= <-].
  - destruct (N_of_ascii a <? 128)%N eqn:Ha; [|done].
    destruct (Str.decode_ascii b) as [s|e] eqn:E; [|done].
    intros [= <-]. simpl. rewrite Ha, (IH s) by done. simpl.
    by rewrite ascii_N_embedding.
Qed.

Lemma encode_app (t1 t2 : str) b1 b2 :
  Str.encode_ascii t1 = Ok b1 → Str.encode_ascii t2 = Ok b2 →
  Str.encode_ascii (t1 ++ t2) = Ok (b1 +:+ b2).
Proof.
  revert b1. induction t1 as [|c t1 IH]; intros b1; simpl.
  - by intros [= <-].
  - destruct (c <? 128)%N; [|done].
    destruct (Str.encode_ascii t1) as [b|e] eqn:E; [|done].
    intros [= <-] H2. by rewrite (IH b eq_refl H2).
Qed.

(** Induction over a string two bytes at a time, as [unhexlify] reads it. *)
Lemma string_pair_ind (P : string → Prop) :
  P EmptyString →
  (∀ a, P (String a EmptyString)) →
  (∀ a a' s, P s → P (String a (String a' s))) →
  ∀ s, P s.
Proof.
  intros H0 H1 H2 s.
  assert (P s ∧ ∀ a, P (String a s)) as [? _]; [|done].
  induction s as [|a s [IHs IHa]]; split; auto.
Qed.

(** [unhexlify] succeeds exactly on the even-length strings of hex digits,
    and halves the length; its only failure is [binascii.Error]. *)
Lemma unhexlify_Ok b r :
  unhexlify b = Ok r →
  all_hex b = true ∧ String.length b = (2 * String.length r)%nat.
Proof.
  revert r. induction b as [| |a a' b IH] using string_pair_ind; intros r.
  - by intros [= <-].
  - done.
  - simpl. unfold is_hex.
    destruct (hex_val a) as [x|]; [|done].
    destruct (hex_val a') as [y|]; [|done].
    destruct (unhexlify b) as [r'|]; [|done].
    intros [= <-]. destruct (IH r' eq_refl) as [-> Hl]. simpl. split; [done|lia].
Qed.

Lemma unhexlify_hex b :
  all_hex b = true → Nat.even (String.length b) = true →
  ∃ r, unhexlify b = Ok r.
Proof.
  induction b as [| |a a' b IH] using string_pair_ind.
  - by eexists.
  - done.
  - simpl. unfold is_hex.
    destruct (hex_val a) as [x|]; [|done].
    destruct (hex_val a') as [y|]; [|done]. simpl.
    intros Hh He. destruct (IH Hh He) as [r ->]. by eexists.
Qed.

Lemma unhexlify_Raise b e : unhexlify b = Raise e → e = BinasciiError.
Proof.
  induction b as [| |a a' b IH] using string_pair_ind.
  - done.
  - by intros [= <-].
  - simpl.
    destruct (hex_val a) as [x|]; [|by intros [= <-]].
    destruct (hex_val a') as [y|]; [|by intros [= <-]].
    destruct (unhexlify b) as [r'|e']; [done|].
    intros [= <-]. by apply IH.
Qed.

Lemma unhexlify_not_hex b : all_hex b = false → unhexlify b = Raise BinasciiError.
Proof.
  intros H. destruct (unhexlify b) as [r|e] eqn:E.
  - apply unhexlify_Ok in E as [? _]. congruence.
  - by rewrite (unhexlify_Raise _ _ E).
Qed.

(** Decimal text. *)
Lemma all_digits_string_of_uint d :
  Bytes.all_digits (NilEmpty.string_of_uint d) = true.
Proof. induction d; simpl; auto. Qed.

Lemma all_digits_no c s :
  Bytes.is_digit c = false → Bytes.all_digits s = true →
  Bytes.contains c s = false.
Proof.
  intros Hc. induction s as [|a s IH]; simpl; [done|].
  intros [Ha Hs]%andb_true_iff.
  destruct (Ascii.eqb_spec a c) as [->|]; [congruence|auto].
Qed.

Lemma format_d_pos p :
  Bytes.format_d (Z.pos p) = NilEmpty.string_of_uint (Pos.to_uint p).
Proof.
  unfold Bytes.format_d. simpl. unfold NilZero.string_of_uint.
  pose proof (DecimalPos.Unsigned.to_uint_nonnil p).
  by destruct (Pos.to_uint p).
Qed.

Lemma format_d_isdigit z : 0 ≤ z → Bytes.isdigit (Bytes.format_d z) = true.
Proof.
  intros Hz. destruct z as [|p|p]; [done| |lia].
  rewrite format_d_pos. unfold Bytes.isdigit.
  pose proof (all_digits_string_of_uint (Pos.to_uint p)) as H.
  pose proof (DecimalPos.Unsigned.to_uint_nonnil p).
  destruct (Pos.to_uint p); simpl in *; done.
Qed.

Lemma int_format_d z : 0 ≤ z → Bytes.int (Bytes.format_d z) = z.
Proof.
  intros Hz. destruct z as [|p|p]; [done| |lia].
  unfold Bytes.int, Bytes.format_d. simpl.
  rewrite NilZero.usu by apply DecimalPos.Unsigned.to_uint_nonnil.
  unfold N.of_uint. by rewrite DecimalPos.Unsigned.of_to.
Qed.

Lemma int_nonneg s : 0 ≤ Bytes.int s.
Proof. unfold Bytes.int. destruct (NilZero.uint_of_string s); lia. Qed.

Lemma format_d_no c z :
  Bytes.is_digit c = false → c ≠ "-"%char →
  Bytes.contains c (Bytes.format_d z) = false.
Proof.
  intros Hc Hm. destruct z as [|p|p].
  - change (Bytes.format_d 0) with "0". by apply all_digits_no.
  - rewrite format_d_pos. apply all_digits_no; [done|].
    apply all_digits_string_of_uint.
  - change (Bytes.format_d (Z.neg p))
      with (String "-"%char (Bytes.format_d (Z.pos p))).
    rewrite contains_cons.
    destruct (Ascii.eqb_spec "-"%char c) as [<-|]; [done|].
    rewrite format_d_pos. apply all_digits_no; [done|].
    apply all_digits_string_of_uint.
Qed.

End codec_facts.

(** * The order of the items *)

Section order_facts.

Implicit Types (x y z : bytes * bytes) (l : list (bytes * bytes)).

Lemma compare_refl (s : bytes) : (s ?= s)%string = Eq.
Proof.
  pose proof (String.compare_antisym s s) as H.
  by destruct (s ?= s)%string.
Qed.

Lemma key_lt_le x y : key_lt x y ↔ String.le x.1 y.1 ∧ x.1 ≠ y.1.
Proof.
  unfold key_lt, String.le, String.leb.
  destruct (x.1 ?= y.1)%string eqn:E.
  - apply String.compare_eq_iff in E. split; [done|]. by intros [_ []].
  - split; [|done]. intros _. split; [done|].
    intros Heq. rewrite Heq, compare_refl in E. done.
  - split; [done|]. by intros [[] _].
Qed.

#[global] Instance item_le_refl : Reflexive item_le.
Proof. intros x. unfold item_le. by rewrite decide_True. Qed.

#[global] Instance item_le_trans : Transitive item_le.
Proof.
  intros [k1 v1] [k2 v2] [k3 v3]. unfold item_le. simpl.
  repeat case_decide; subst; try done; intros Hle1 Hle2.
  - by etrans.
  - by pose proof (anti_symm String.le _ _ Hle1 Hle2).
  - by etrans.
Qed.

#[global] Instance item_le_antisymm : AntiSymm (=) item_le.
Proof.
  intros [k1 v1] [k2 v2]. unfold item_le. simpl.
  repeat case_decide; subst; try done; intros Hle1 Hle2.
  - f_equal. by apply (anti_symm String.le).
  - by pose proof (anti_symm String.le _ _ Hle1 Hle2).
Qed.

#[global] Instance item_le_total : Total item_le.
Proof.
  intros [k1 v1] [k2 v2]. unfold item_le. simpl.
  repeat case_decide; subst; try done; apply (total String.le).
Qed.

Lemma sorted_Permutation l : sorted l ≡ₚ l.
Proof. apply merge_sort_Permutation. Qed.

Lemma sorted_StronglySorted l : StronglySorted item_le (sorted l).
Proof. apply StronglySorted_merge_sort; apply _. Qed.

Lemma key_lt_item_le x y : key_lt x y → item_le x y.
Proof.
  intros [Hle Hne]%key_lt_le. unfold item_le. by rewrite decide_False.
Qed.

Lemma StronglySorted_key_lt_item_le l :
  StronglySorted key_lt l → StronglySorted item_le l.
Proof.
  induction 1 as [|x l Hl IH Hx]; constructor; [done|].
  eapply Forall_impl; [exact Hx|]. intros y. apply key_lt_item_le.
Qed.

Lemma StronglySorted_item_le_key_lt l :
  NoDup (l.*1) → StronglySorted item_le l → StronglySorted key_lt l.
Proof.
  intros Hnd Hs. induction Hs as [|x l Hl IH Hx]; [constructor|].
  rewrite fmap_cons in Hnd. apply NoDup_cons in Hnd as [Hx' Hnd].
  constructor; [auto|].
  apply Forall_forall. intros y Hy. rewrite Forall_forall in Hx.
  specialize (Hx y Hy). apply key_lt_le.
  assert (x.1 ≠ y.1) as Hne.
  { intros Heq. apply Hx'. rewrite Heq. apply list_elem_of_fmap. by exists y. }
  split; [|done]. unfold item_le in Hx. by rewrite decide_False in Hx.
Qed.

Lemma StronglySorted_key_lt_NoDup l : StronglySorted key_lt l → NoDup (l.*1).
Proof.
  induction 1 as [|x l Hl IH Hx]; [constructor|].
  rewrite fmap_cons. apply NoDup_cons. split; [|done].
  intros (y & Heq & Hy)%list_elem_of_fmap. rewrite Forall_forall in Hx.
  apply Hx, key_lt_le in Hy as [_ Hne]. done.
Qed.

(** The sorted items of a dict: the entries of the dict, each once, in
    strictly increasing key order. *)
Lemma sorted_items (m : gmap string string) :
  StronglySorted key_lt (sorted (map_to_list m)) ∧
  ∀ k v, (k, v) ∈ sorted (map_to_list m) ↔ m !! k = Some v.
Proof.
  split.
  - apply StronglySorted_item_le_key_lt; [|apply sorted_StronglySorted].
    rewrite sorted_Permutation. apply NoDup_fst_map_to_list.
  - intros k v. by rewrite sorted_Permutation, elem_of_map_to_list.
Qed.

(** A list already in strict key order is what [sorted] returns for the
    dict built from it. *)
Lemma sorted_list_to_map l :
  StronglySorted key_lt l →
  sorted (map_to_list (list_to_map l : gmap string string)) = l.
Proof.
  intros Hl. apply (StronglySorted_unique item_le).
  - apply sorted_StronglySorted.
  - by apply StronglySorted_key_lt_item_le.
  - rewrite sorted_Permutation. apply map_to_list_to_map.
    by apply StronglySorted_key_lt_NoDup.
Qed.

Lemma sorted_map_to_list_idemp (m : gmap string string) :
  list_to_map (sorted (map_to_list m)) = m.
Proof.
  rewrite <-(list_to_map_to_list m) at 2. apply list_to_map_proper.
  - rewrite sorted_Permutation. apply NoDup_fst_map_to_list.
  - apply sorted_Permutation.
Qed.

End order_facts.

(** * Facts about the parser and the serializer *)

Section pointer_facts.

Implicit Types (m attrs : gmap string string) (items : list (bytes * bytes)).
Implicit Types (p : Pointer.t) (k v hex sha line : bytes).

Lemma item_line_eq k v : item_line (k, v) = k +:+ String SP v.
Proof. reflexivity. Qed.

Lemma item_line_no_NL kv : wf_item kv → Bytes.contains NL (item_line kv) = false.
Proof.
  destruct kv as [k v]. intros (_ & Hk & Hv). simpl in *.
  rewrite item_line_eq, contains_app, contains_cons, Hk, Hv. done.
Qed.

Lemma bind_Ok {A B} (m : res A) (f : A → res B) a : m = Ok a → m ≫= f = f a.
Proof. by intros ->. Qed.

Lemma bind_Ok_inv {A B} (m : res A) (f : A → res B) b :
  m ≫= f = Ok b → ∃ a, m = Ok a ∧ f a = Ok b.
Proof. destruct m as [a|e]; [|done]. intros H. by exists a. Qed.

Lemma bind_Raise_inv {A B} (m : res A) (f : A → res B) e :
  m ≫= f = Raise e → m = Raise e ∨ ∃ a, m = Ok a ∧ f a = Raise e.
Proof.
  destruct m as [a|e']; intros H; [right; by exists a|left].
  simpl in H. by simplify_eq.
Qed.

Lemma getitem_Ok {V} (d : gmap string V) k x : getitem d k = Ok x ↔ d !! k = Some x.
Proof. unfold getitem. destruct (d !! k); split; congruence. Qed.

Lemma getitem_Raise {V} (d : gmap string V) k e :
  getitem d k = Raise e ↔ d !! k = None ∧ e = KeyError k.
Proof.
  unfold getitem. destruct (d !! k); split; try done.
  - by intros [??].
  - by intros [= <-].
  - by intros [_ ->].
Qed.

(** ** Serialization *)

Lemma hexdigest_Ok hex sha :
  unhexlify hex = Ok sha →
  SHA256.hexdigest (SHA256.mk hex sha) = Ok (Str.of_ascii hex).
Proof. intros [Hh _]%unhexlify_Ok. by apply decode_all_hex. Qed.

Lemma encode_oid_value hex :
  all_hex hex = true →
  Str.encode_ascii (SHA256.digest_name ++ [N_of_ascii COLON] ++ Str.of_ascii hex)
  = Ok (oid_value hex).
Proof.
  intros Hh.
  change (SHA256.digest_name ++ [N_of_ascii COLON] ++ Str.of_ascii hex)
    with (Str.of_ascii "sha256:" ++ Str.of_ascii hex).
  apply (encode_app _ _ "sha256:" hex); [done|].
  by apply encode_of_ascii, decode_all_hex.
Qed.

Lemma to_bytes_Ok p hex sha :
  Pointer.oid p = Some (SHA256.mk hex sha) →
  unhexlify hex = Ok sha →
  Pointer.to_bytes p
  = Ok (Bytes.unlines
          (map item_line (version_item :: sorted (map_to_list (stored_attrs p hex))))).
Proof.
  intros Ho Hu. rewrite <-join_unlines by done.
  unfold Pointer.to_bytes, Pointer.__bytes__. simpl.
  rewrite Ho. simpl.
  rewrite (bind_Ok _ _ _ (hexdigest_Ok _ _ Hu)).
  rewrite (bind_Ok _ _ (oid_value hex)).
  2:{ apply encode_oid_value. by apply unhexlify_Ok in Hu as [? _]. }
  reflexivity.
Qed.

Lemma to_bytes_None p :
  Pointer.oid p = None → Pointer.to_bytes p = Raise AttributeError.
Proof.
  intros Ho. unfold Pointer.to_bytes, Pointer.__bytes__. simpl. by rewrite Ho.
Qed.

(** ** Reading attribute lines *)

Lemma readlines_unlines (ls : list bytes) :
  Forall (fun l => Bytes.contains NL l = false) ls →
  Bytes.readlines (Bytes.unlines ls) = map (fun l => l +:+ String NL EmptyString) ls.
Proof.
  induction 1 as [|l ls Hl _ IH]; [done|]. simpl.
  by rewrite readlines_app_line, IH.
Qed.

Lemma split_item_line kv :
  wf_item kv →
  unpack2 (Bytes.split1 SP (Bytes.rstrip_nl (item_line kv +:+ String NL EmptyString)))
  = Ok kv.
Proof.
  intros Hkv. rewrite rstrip_nl_line by by apply item_line_no_NL.
  destruct kv as [k v], Hkv as (Hk & _ & _). simpl in *.
  rewrite item_line_eq. unfold Bytes.split1. by rewrite partition_app.
Qed.

Lemma read_attrs_item_lines items m :
  Forall wf_item items →
  Pointer.read_attrs
    (map (fun l => l +:+ String NL EmptyString) (map item_line items)) m
  = Ok (foldl store m items).
Proof.
  intros H. revert m. induction H as [|kv items Hkv _ IH]; intros m; [done|].
  simpl. rewrite (bind_Ok _ _ _ (split_item_line _ Hkv)).
  destruct kv as [k v]. apply IH.
Qed.

Lemma foldl_store_lookup items m k :
  NoDup (items.*1) →
  foldl store m items !! k
  = match (list_to_map items : gmap string string) !! k with
    | Some v => Some v
    | None => m !! k
    end.
Proof.
  revert m. induction items as [|[k0 v0] items IH]; intros m Hnd; [done|].
  rewrite fmap_cons in Hnd. apply NoDup_cons in Hnd as [Hk0 Hnd].
  simpl. rewrite IH by done. unfold store. simpl.
  destruct (decide (k0 = k)) as [->|Hne].
  - rewrite !lookup_insert_eq.
    by rewrite (not_elem_of_list_to_map_1 items k Hk0).
  - by rewrite !lookup_insert_ne.
Qed.

Lemma foldl_store_empty items :
  NoDup (items.*1) → foldl store ∅ items = list_to_map items.
Proof.
  intros Hnd. apply map_eq. intros k. rewrite foldl_store_lookup by done.
  rewrite lookup_empty. by destruct (_ !! k).
Qed.

(** Whatever the loop stores is a well-formed item. *)
Lemma split_line_wf line k v :
  is_line line →
  unpack2 (Bytes.split1 SP (Bytes.rstrip_nl line)) = Ok (k, v) →
  Bytes.rstrip_nl line = k +:+ String SP v ∧ wf_item (k, v).
Proof.
  intros Hl%is_line_rstrip. unfold Bytes.split1.
  destruct (Bytes.partition SP (Bytes.rstrip_nl line)) as [[l r]|] eqn:E; [|done].
  intros [= -> ->]. apply partition_Some in E as [E Hk]. split; [done|].
  rewrite E, contains_app, contains_cons in Hl.
  apply orb_false_iff in Hl as [Hl1 Hl2]. split; [done|]. split; [done|].
  by destruct (Ascii.eqb SP NL).
Qed.

Lemma read_attrs_wf lines m m' :
  Forall is_line lines →
  map_Forall (fun k v => wf_item (k, v)) m →
  Pointer.read_attrs lines m = Ok m' →
  map_Forall (fun k v => wf_item (k, v)) m'.
Proof.
  intros H. revert m. induction H as [|line lines Hl _ IH]; intros m Hm; simpl.
  - by intros [= <-].
  - destruct (unpack2 _) as [[k v]|e] eqn:E; [|done]. simpl.
    apply IH. apply map_Forall_insert_2; [|done].
    by apply (split_line_wf line).
Qed.

(** ** The version check *)

(** The unpacking inside [_verify_version] cannot fail: the guard makes sure
    of the space.  The function always returns. *)
Lemma verify_version_total line : ∃ o, Pointer._verify_version line = Ok o.
Proof.
  unfold Pointer._verify_version.
  destruct (Bytes.endswith_nl line && Bytes.contains SP line) eqn:E; [|by eexists].
  apply andb_true_iff in E as [_ Hsp%contains_SP_rstrip_nl].
  apply contains_partition in Hsp as [[k v] Hp].
  unfold Bytes.split1. rewrite Hp. simpl. case_decide; by eexists.
Qed.

(** What the check answers on a line with terminator, space and the key
    [version]: the membership of the value in the enumeration. *)
Lemma verify_version_line value :
  Bytes.contains NL value = false →
  Pointer._verify_version ("version " +:+ value +:+ String NL EmptyString)
  = Ok (PyBool (Version.verify value)).
Proof.
  intros Hv. unfold Pointer._verify_version.
  change ("version " +:+ value +:+ String NL EmptyString)
    with (("version" +:+ String SP value) +:+ String NL EmptyString).
  assert (Bytes.contains SP (("version" +:+ String SP value) +:+ String NL EmptyString)
          = true) as ->.
  { rewrite !contains_app, (contains_cons SP SP value), Ascii.eqb_refl.
    by rewrite orb_true_r. }
  rewrite endswith_nl_app. simpl andb. cbv iota.
  rewrite rstrip_nl_line.
  2:{ by rewrite contains_app, (contains_cons NL SP value), Hv. }
  unfold Bytes.split1. by rewrite partition_app.
Qed.

(** ** [from_file], step by step *)

Lemma SHA256_bytes_Ok b o :
  SHA256.__init__ (PyBytes b) = Ok o →
  String.length b = 64%nat ∧ ∃ sha, unhexlify b = Ok sha ∧ o = SHA256.mk b sha.
Proof.
  unfold SHA256.__init__. simpl.
  destruct (String.length b =? 64)%nat eqn:E; simpl; [|done].
  apply Nat.eqb_eq in E. destruct (unhexlify b) as [sha|]; simpl; [|done].
  intros [= <-]. eauto.
Qed.

Lemma SHA256_bytes_intro b sha :
  String.length b = 64%nat → unhexlify b = Ok sha →
  SHA256.__init__ (PyBytes b) = Ok (SHA256.mk b sha).
Proof.
  intros Hl Hu. unfold SHA256.__init__. simpl. rewrite Hl, Hu. done.
Qed.

Lemma supported_digests_lookup t :
  is_Some (supported_digests !! t) → t = "sha256".
Proof.
  unfold supported_digests. intros [c Hc].
  by apply lookup_singleton_Some in Hc as [<- _].
Qed.

Lemma supported_digests_sha256 :
  supported_digests !! "sha256" = Some SHA256.__init__.
Proof. apply lookup_singleton_eq. Qed.

Lemma from_file_inv f p :
  Pointer.from_file f = Ok p →
  (f = EmptyString ∧ p = Pointer.__init__) ∨ accepted f p.
Proof.
  unfold Pointer.from_file.
  destruct (Bytes.readline 256 f) as [line rest] eqn:Hrl.
  destruct line as [|a line].
  { simpl. intros [= <-]. left. split; [|done].
    destruct f as [|a f]; [done|].
    assert ((Bytes.readline 256 (String a f)).1 ≠ EmptyString) as Hne.
    { apply readline_nonempty; [lia|done]. }
    by rewrite Hrl in Hne. }
  change (negb (truthy (PyBytes (String a line)))) with false. cbv iota.
  intros (ok & Hv & H)%bind_Ok_inv. right.
  destruct (truthy ok) eqn:Hok; simpl in H; [|done].
  apply bind_Ok_inv in H as (attrs & Hattrs & H).
  apply bind_Ok_inv in H as ([oid_type oid_hash] & Hsplit & H).
  apply bind_Ok_inv in Hsplit as (v & Hoid%getitem_Ok & Hsplit).
  unfold Bytes.split1 in Hsplit.
  destruct (Bytes.partition COLON v) as [[l r]|] eqn:Hp; [|done].
  simpl in Hsplit. injection Hsplit as -> ->.
  apply partition_Some in Hp as [-> _].
  case_bool_decide as Hsup; simpl in H; [|done].
  apply supported_digests_lookup in Hsup as ->.
  apply bind_Ok_inv in H as (o & Ho & H).
  apply bind_Ok_inv in Ho as (ctor & Hctor%getitem_Ok & Ho).
  unfold supported_digests in Hctor.
  apply lookup_singleton_Some in Hctor as [_ <-].
  apply SHA256_bytes_Ok in Ho as (Hlen & sha & Hu & ->).
  apply bind_Ok_inv in H as (sz & Hsz%getitem_Ok & H).
  destruct (Bytes.isdigit sz) eqn:Hd; simpl in H; [|done].
  apply bind_Ok_inv in H as (sz' & Hsz'%getitem_Ok & H).
  assert (sz' = sz) as -> by congruence.
  injection H as <-.
  exists (String a line), rest, ok, attrs, oid_hash, sha, sz. done.
Qed.

Lemma from_file_intro f p : accepted f p → Pointer.from_file f = Ok p.
Proof.
  intros (line & rest & ok & attrs & hex & sha & sz &
          Hrl & Hne & Hv & Hok & Hattrs & Hoid & Hlen & Hu & Hsz & Hd & ->).
  unfold Pointer.from_file. rewrite Hrl.
  destruct line as [|a line]; [done|].
  change (negb (truthy (PyBytes (String a line)))) with false. cbv iota.
  rewrite Hv. simpl. rewrite Hok. simpl. rewrite Hattrs. simpl.
  apply getitem_Ok in Hoid, Hsz. rewrite Hoid. simpl.
  change (EmptyString +:+ hex) with hex.
  pose proof supported_digests_sha256 as Hs.
  rewrite bool_decide_true by (by rewrite Hs). simpl.
  apply getitem_Ok in Hs. rewrite Hs. simpl.
  rewrite (SHA256_bytes_intro _ _ Hlen Hu). simpl.
  rewrite Hsz. simpl. by rewrite Hd.
Qed.

Lemma accepted_nonempty f p : accepted f p → f ≠ EmptyString.
Proof.
  intros (line & rest & _ & _ & _ & _ & _ & Hrl & Hne & _) ->. by simplify_eq/=.
Qed.

(** ** Parsing what [__bytes__] writes *)

Lemma readline_pointer_file items :
  Bytes.readline 256 (pointer_file items)
  = (item_line version_item +:+ String NL EmptyString,
     Bytes.unlines (map item_line items)).
Proof.
  unfold pointer_file. simpl map. simpl Bytes.unlines.
  apply readline_app_line; [done|]. vm_compute. lia.
Qed.

Lemma read_attrs_pointer_file items :
  Forall wf_item items → NoDup (items.*1) →
  Pointer.read_attrs (Bytes.readlines (Bytes.unlines (map item_line items))) ∅
  = Ok (list_to_map items).
Proof.
  intros Hwf Hnd. rewrite readlines_unlines.
  - by rewrite read_attrs_item_lines, foldl_store_empty.
  - apply Forall_fmap. eapply Forall_impl; [exact Hwf|].
    intros kv. apply item_line_no_NL.
Qed.

Lemma verify_version_item :
  Pointer._verify_version (item_line version_item +:+ String NL EmptyString)
  = Ok (PyBool true).
Proof. exact (verify_version_line (Version.value Version.V1) eq_refl). Qed.

Lemma from_file_pointer_file items hex sha sz :
  Forall wf_item items → NoDup (items.*1) →
  (list_to_map items : gmap string string) !! Key.OID = Some (oid_value hex) →
  String.length hex = 64%nat → unhexlify hex = Ok sha →
  (list_to_map items : gmap string string) !! Key.SIZE = Some sz →
  Bytes.isdigit sz = true →
  Pointer.from_file (pointer_file items)
  = Ok (Pointer.mk (list_to_map items) (Some (SHA256.mk hex sha)) (Bytes.int sz)).
Proof.
  intros Hwf Hnd Hoid Hlen Hu Hsz Hd. apply from_file_intro.
  eexists _, _, _, _, hex, sha, sz. split; [apply readline_pointer_file|].
  split; [done|]. split; [apply verify_version_item|]. split; [done|].
  split; [by apply read_attrs_pointer_file|]. done.
Qed.

Lemma all_hex_no c hex : is_hex c = false → all_hex hex = true → Bytes.contains c hex = false.
Proof.
  intros Hc. induction hex as [|a hex IH]; simpl; [done|].
  intros [Ha Hs]%andb_true_iff.
  destruct (Ascii.eqb_spec a c) as [->|]; [congruence|auto].
Qed.

Lemma stored_attrs_stored p hex :
  stored_attrs (stored p hex) hex = stored_attrs p hex.
Proof.
  unfold stored_attrs at 1. simpl. rewrite !insert_id; [done| |].
  - unfold stored_attrs. by rewrite lookup_insert_ne, lookup_insert_eq.
  - rewrite insert_id; [apply lookup_insert_eq|].
    unfold stored_attrs. by rewrite lookup_insert_ne, lookup_insert_eq.
Qed.

(** An accepted input gives a record that serializes, and the bytes written
    parse back to the record [__bytes__] left behind. *)
Lemma accepted_roundtrip f p :
  accepted f p →
  ∃ hex sha,
    Pointer.oid p = Some (SHA256.mk hex sha) ∧ unhexlify hex = Ok sha ∧
    Pointer._attrs p !! Key.OID = Some (oid_value hex) ∧
    0 ≤ Pointer.size p ∧
    map_Forall (fun k v => wf_item (k, v)) (stored_attrs p hex) ∧
    let out := pointer_file (sorted (map_to_list (stored_attrs p hex))) in
    Pointer.to_bytes p = Ok out ∧
    Pointer.from_file out = Ok (stored p hex) ∧
    Pointer.to_bytes (stored p hex) = Ok out.
Proof.
  intros (line & rest & ok & attrs & hex & sha & sz &
          Hrl & Hne & Hv & Hok & Hattrs & Hoid & Hlen & Hu & Hsz & Hd & ->).
  exists hex, sha. split; [done|]. split; [done|]. split; [done|].
  split; [apply int_nonneg|].
  set (p := Pointer.mk attrs _ _).
  assert (map_Forall (fun k v => wf_item (k, v)) (stored_attrs p hex)) as Hwf.
  { unfold stored_attrs. apply map_Forall_insert_2; [|apply map_Forall_insert_2].
    - split; [done|]. split; [done|]. simpl. unfold oid_value.
      rewrite contains_app. simpl Bytes.contains at 1.
      apply unhexlify_Ok in Hu as [Hh _]. by rewrite (all_hex_no NL hex).
    - split; [done|]. split; [done|]. simpl. by apply format_d_no.
    - eapply read_attrs_wf; [apply readlines_is_line| |exact Hattrs].
      apply map_Forall_empty. }
  split; [done|].
  set (m' := stored_attrs p hex) in *. set (items := sorted (map_to_list m')).
  destruct (sorted_items m') as [Hsorted Hmem]. fold items in Hsorted, Hmem.
  assert (list_to_map items = m') as Hm' by apply sorted_map_to_list_idemp.
  assert (Pointer.to_bytes p = Ok (pointer_file items)) as Hout.
  { by apply (to_bytes_Ok p hex sha). }
  simpl. split; [done|].
  assert (stored p hex
          = Pointer.mk (list_to_map items) (Some (SHA256.mk hex sha))
              (Bytes.int (Bytes.format_d (Bytes.int sz)))) as Hst.
  { unfold stored. rewrite Hm', int_format_d by apply int_nonneg. done. }
  split.
  - rewrite Hst. apply from_file_pointer_file; try done.
    + apply Forall_forall. intros [k v] Hkv. apply Hmem in Hkv.
      by apply (Hwf k v).
    + by apply StronglySorted_key_lt_NoDup.
    + rewrite Hm'. apply lookup_insert_eq.
    + rewrite Hm'. unfold m', stored_attrs.
      by rewrite lookup_insert_ne, lookup_insert_eq.
    + apply format_d_isdigit, int_nonneg.
  - rewrite (to_bytes_Ok (stored p hex) hex sha) by done.
    by rewrite stored_attrs_stored.
Qed.

End pointer_facts.

(** * Round trip *)

(** C1, the claim as stated fails: a file that uses the primary schema URI,
    lists its attributes in sorted key order and has only [key value] lines
    does not serialize back to itself when its size carries a leading zero
    (the serializer writes the size anew from the integer), nor when a key
    comes twice (the dict keeps the last value only). *)
Lemma roundtrip_leading_zero_counterexample :
  (StronglySorted key_lt leading_zero_items ∧
   Forall wf_item leading_zero_items ∧
   pointer_file leading_zero_items
   = Bytes.unlines ["version https://git-lfs.github.com/spec/v1";
                    "oid sha256:" +:+ example_hex;
                    "size 012345"] ∧
   reserialize (pointer_file leading_zero_items)
   = Ok (Bytes.unlines ["version https://git-lfs.github.com/spec/v1";
                        "oid sha256:" +:+ example_hex;
                        "size 12345"]) ∧
   reserialize (pointer_file leading_zero_items)
   ≠ Ok (pointer_file leading_zero_items)) ∧
  (StronglySorted item_le repeated_key_items ∧
   Forall wf_item repeated_key_items ∧
   reserialize (pointer_file repeated_key_items)
   = Ok (Bytes.unlines ["version https://git-lfs.github.com/spec/v1";
                        "a 2";
                        "oid sha256:" +:+ example_hex;
                        "size 12345"]) ∧
   reserialize (pointer_file repeated_key_items)
   ≠ Ok (pointer_file repeated_key_items)).
Proof.
  split; [split; [|split; [|split; [|split]]]|split; [|split; [|split]]].
  - repeat constructor.
  - repeat constructor.
  - reflexivity.
  - vm_compute. reflexivity.
  - vm_compute. discriminate.
  - repeat constructor; vm_compute; exact I.
  - repeat constructor.
  - vm_compute. reflexivity.
  - vm_compute. discriminate.
Qed.

(** C1 (amended): parsing what the serializer wrote and serializing again
    gives the same bytes, for every input (when a step raises, both sides
    raise the same exception); on every non-empty input the parser accepts,
    all three steps return; and a file with the primary version line and its
    items in strictly increasing key order serializes back to itself when
    its size value is the decimal text the serializer writes for it. *)
Theorem roundtrip_idempotent :
  (∀ B, (out ← reserialize B; reserialize out) = reserialize B) ∧
  (∀ B p, B ≠ EmptyString → Pointer.from_bytes B = Ok p →
     ∃ out p', Pointer.to_bytes p = Ok out ∧
               Pointer.from_bytes out = Ok p' ∧
               Pointer.to_bytes p' = Ok out) ∧
  (∀ items p,
     StronglySorted key_lt items → Forall wf_item items →
     (∀ sz, (Key.SIZE, sz) ∈ items → Bytes.format_d (Bytes.int sz) = sz) →
     Pointer.from_bytes (pointer_file items) = Ok p →
     Pointer.to_bytes p = Ok (pointer_file items)).
Proof.
  split; [|split].
  - intros B. unfold reserialize at 2 3, Pointer.from_bytes.
    destruct (Pointer.from_file B) as [p|e] eqn:Hp; [|done]. simpl.
    apply from_file_inv in Hp as [[-> ->]|Hacc]; [done|].
    destruct (accepted_roundtrip _ _ Hacc)
      as (hex & sha & _ & _ & _ & _ & _ & Hout & Hback & Hagain).
    rewrite Hout. simpl. unfold reserialize, Pointer.from_bytes.
    by rewrite Hback.
  - intros B p HB Hp. apply from_file_inv in Hp as [[-> ->]|Hacc]; [done|].
    destruct (accepted_roundtrip _ _ Hacc)
      as (hex & sha & _ & _ & _ & _ & _ & Hout & Hback & Hagain).
    eauto.
  - intros items p Hsorted Hwf Hsize Hp.
    pose proof (StronglySorted_key_lt_NoDup _ Hsorted) as Hnd.
    apply from_file_inv in Hp as [[Hempty _]|Hacc]; [done|].
    destruct (accepted_roundtrip _ _ Hacc)
      as (hex & sha & Ho & Hu & Hoid & _ & _ & Hout & _).
    destruct Hacc as (line & rest & ok & attrs & hex' & sha' & sz &
          Hrl & _ & _ & _ & Hattrs & _ & _ & _ & Hsz & _ & ->).
    rewrite readline_pointer_file in Hrl. injection Hrl as <- <-.
    rewrite read_attrs_pointer_file in Hattrs by done. injection Hattrs as <-.
    simpl in *. rewrite Hout. do 2 f_equal.
    unfold stored_attrs. simpl.
    rewrite (Hsize sz) by by apply elem_of_list_to_map.
    rewrite (insert_id _ Key.SIZE), (insert_id _ Key.OID) by done.
    by apply sorted_list_to_map.
Qed.

(** The first doctest of [__bytes__]: the canonical example serializes back
    to itself. *)
Lemma roundtrip_idempotent_witness :
  Pointer.to_bytes
    (Pointer.mk (list_to_map [("oid", "sha256:" +:+ example_hex); ("size", "12345")])
       (Some example_digest) 12345)
  = Ok (Bytes.unlines ["version https://git-lfs.github.com/spec/v1";
                       "oid sha256:" +:+ example_hex;
                       "size 12345"]).
Proof.
  apply (proj2 (proj2 roundtrip_idempotent)
           [("oid", "sha256:" +:+ example_hex); ("size", "12345")]).
  - repeat constructor.
  - repeat constructor.
  - intros sz Hsz. apply list_elem_of_In in Hsz. simpl in Hsz.
    destruct Hsz as [H|[H|[]]]; [discriminate H|].
    injection H as <-. reflexivity.
  - vm_compute. reflexivity.
Defined.

(** * The digest object *)

Section digest_facts.

Implicit Types (s : str) (b : bytes) (o : SHA256.t).

Lemma encode_Ok s b : Str.encode_ascii s = Ok b → Str.of_ascii b = s.
Proof.
  revert b. induction s as [|c s IH]; intros b; simpl.
  - by intros [= <-].
  - destruct (c <? 128)%N eqn:Hc; [|done].
    destruct (Str.encode_ascii s) as [b'|] eqn:E; [|done].
    intros [= <-]. simpl. rewrite (IH b' eq_refl).
    apply N.ltb_lt in Hc. rewrite N_ascii_embedding by lia. done.
Qed.

Lemma encode_Raise s e : Str.encode_ascii s = Raise e → e = UnicodeEncodeError.
Proof.
  induction s as [|c s IH]; simpl; [done|].
  destruct (c <? 128)%N; [|by intros [= <-]].
  destruct (Str.encode_ascii s) as [b'|e']; [done|].
  intros [= <-]. by apply IH.
Qed.

Lemma length_of_ascii b : length (Str.of_ascii b) = String.length b.
Proof. induction b as [|a b IH]; simpl; [done|]. by rewrite IH. Qed.

(** Every digest object the constructor returns holds 64 hex digits and
    their decoding. *)
Lemma SHA256_init_Ok (arg : pyobj) o :
  SHA256.__init__ arg = Ok o →
  ∃ hex sha, o = SHA256.mk hex sha ∧
             String.length hex = 64%nat ∧ unhexlify hex = Ok sha.
Proof.
  intros H.
  assert (∃ b, SHA256.__init__ (PyBytes b) = Ok o) as [b Hb].
  { destruct arg as [| s | b | |]; try done; [|by exists b].
    unfold SHA256.__init__ in H.
    apply bind_Ok_inv in H as (o' & Ho' & H).
    apply bind_Ok_inv in Ho' as (b & Hb & [= <-]). by exists b. }
  apply SHA256_bytes_Ok in Hb as (Hlen & sha & Hu & ->). eauto.
Qed.

End digest_facts.

(** * Canonical serialization *)



(** * Version normalization *)

(** C3: an accepted input whose version line names a legacy schema URI
    serializes to bytes whose first line is the version line of the primary
    URI, which is not the line the input began with. *)
Theorem version_normalization (uri rest : bytes) (p : Pointer.t) :
  uri = Version.value Version.PRE ∨ uri = Version.value Version.ALPHA →
  Pointer.from_bytes ("version " +:+ uri +:+ String NL rest) = Ok p →
  ∃ out body,
    Pointer.to_bytes p = Ok out ∧
    out = "version https://git-lfs.github.com/spec/v1" +:+ String NL body ∧
    (Bytes.readline 256 out).1
    = "version https://git-lfs.github.com/spec/v1" +:+ String NL EmptyString ∧
    (Bytes.readline 256 out).1 ≠ "version " +:+ uri +:+ String NL EmptyString.
Proof.
  intros Huri Hp. apply from_file_inv in Hp as [[Hempty _]|Hacc].
  { by destruct Huri as [-> | ->]. }
  destruct (accepted_roundtrip _ _ Hacc)
    as (hex & sha & _ & _ & _ & _ & _ & Hout & _).
  eexists _, _. split; [exact Hout|]. split; [reflexivity|].
  rewrite readline_pointer_file. simpl. split; [reflexivity|].
  by destruct Huri as [-> | ->].
Qed.

(** The second doctest of [__bytes__]: a [hawser] file, size before oid. *)
Lemma version_normalization_witness :
  ∃ out body,
    Pointer.to_bytes
      (Pointer.mk (list_to_map [("size", "12345"); ("oid", "sha256:" +:+ example_hex)])
         (Some example_digest) 12345)
    = Ok out ∧
    out = "version https://git-lfs.github.com/spec/v1" +:+ String NL body ∧
    (Bytes.readline 256 out).1
    = "version https://git-lfs.github.com/spec/v1" +:+ String NL EmptyString ∧
    (Bytes.readline 256 out).1
    ≠ "version " +:+ "https://hawser.github.com/spec/v1" +:+ String NL EmptyString.
Proof.
  apply (version_normalization "https://hawser.github.com/spec/v1"
           (Bytes.unlines ["size 12345"; "oid sha256:" +:+ example_hex])).
  - left. reflexivity.
  - vm_compute. reflexivity.
Defined.

(** * Failures of the parser *)

Section failure_facts.

Implicit Types (f rest l k v : bytes) (attrs m : gmap string string).

(** Unfolds [from_file] up to the loop over the attribute lines. *)
Ltac from_file_start H :=
  let line := fresh "line" in
  let ok := fresh "ok" in
  let Hrl := fresh "Hrl" in
  let Hne := fresh "Hne" in
  let Hv := fresh "Hv" in
  let Hok := fresh "Hok" in
  destruct H as (line & ok & Hrl & Hne & Hv & Hok);
  unfold Pointer.from_file; rewrite Hrl;
  destruct line; [done|];
  match goal with
  | |- context [negb (truthy (PyBytes (String ?a ?s)))] =>
      change (negb (truthy (PyBytes (String a s)))) with false
  end;
  cbv iota; rewrite Hv; simpl; rewrite Hok; simpl.

Lemma unpack2_Raise (ls : list bytes) e : unpack2 ls = Raise e → e = ValueError.
Proof. destruct ls as [|? [|? [|]]]; simpl; congruence. Qed.

Lemma read_attrs_Raise lines m e :
  Pointer.read_attrs lines m = Raise e → e = ValueError.
Proof.
  revert m. induction lines as [|l lines IH]; intros m; simpl; [done|].
  destruct (unpack2 _) as [[k v]|e'] eqn:E; simpl.
  - apply IH.
  - intros [= <-]. by apply unpack2_Raise in E.
Qed.

Lemma read_attrs_bad_line lines m l :
  l ∈ lines → Bytes.contains SP l = false →
  Pointer.read_attrs lines m = Raise ValueError.
Proof.
  intros Hl Hsp.
  destruct (Pointer.read_attrs lines m) as [m'|e] eqn:E.
  - exfalso. revert m E. induction Hl as [l lines|l l' lines Hl IH]; intros m; simpl.
    + assert (Bytes.partition SP (Bytes.rstrip_nl l) = None) as Hp.
      { apply partition_None. destruct (Bytes.contains SP (Bytes.rstrip_nl l)) eqn:Hc; [|done].
        apply contains_rstrip_nl in Hc. congruence. }
      unfold Bytes.split1. by rewrite Hp.
    + destruct (unpack2 _) as [[k v]|e'] eqn:E; simpl; [|done]. by apply IH.
  - by apply read_attrs_Raise in E as ->.
Qed.

Lemma from_file_attrs_Raise f rest e :
  version_checked f rest →
  Pointer.read_attrs (Bytes.readlines rest) ∅ = Raise e →
  Pointer.from_file f = Raise e.
Proof. intros H Hattrs. from_file_start H. by rewrite Hattrs. Qed.

Lemma from_file_no_oid f rest attrs :
  version_checked f rest →
  Pointer.read_attrs (Bytes.readlines rest) ∅ = Ok attrs →
  attrs !! Key.OID = None →
  Pointer.from_file f = Raise (KeyError Key.OID).
Proof.
  intros H Hattrs Hoid. from_file_start H. rewrite Hattrs. simpl.
  unfold getitem. by rewrite Hoid.
Qed.

Lemma from_file_unsupported f rest attrs v t h :
  version_checked f rest →
  Pointer.read_attrs (Bytes.readlines rest) ∅ = Ok attrs →
  attrs !! Key.OID = Some v →
  Bytes.partition COLON v = Some (t, h) →
  t ≠ "sha256" →
  Pointer.from_file f
  = Raise (PointerFormatException "Unsupported oid type %s" (Some t)).
Proof.
  intros H Hattrs Hoid Hp Ht. from_file_start H. rewrite Hattrs. simpl.
  apply getitem_Ok in Hoid. rewrite Hoid. simpl.
  unfold Bytes.split1. rewrite Hp. simpl.
  rewrite bool_decide_false; [done|].
  by intros ?%supported_digests_lookup.
Qed.

Lemma from_file_no_size f rest attrs hex sha :
  version_checked f rest →
  Pointer.read_attrs (Bytes.readlines rest) ∅ = Ok attrs →
  attrs !! Key.OID = Some (oid_value hex) →
  String.length hex = 64%nat → unhexlify hex = Ok sha →
  attrs !! Key.SIZE = None →
  Pointer.from_file f = Raise (KeyError Key.SIZE).
Proof.
  intros H Hattrs Hoid Hlen Hu Hsz. from_file_start H. rewrite Hattrs. simpl.
  apply getitem_Ok in Hoid. rewrite Hoid. simpl.
  change (EmptyString +:+ hex) with hex.
  pose proof supported_digests_sha256 as Hs.
  rewrite bool_decide_true by (by rewrite Hs). simpl.
  apply getitem_Ok in Hs. rewrite Hs. simpl.
  rewrite (SHA256_bytes_intro _ _ Hlen Hu). simpl.
  unfold getitem. by rewrite Hsz.
Qed.

Lemma accepted_attrs f rest attrs p :
  version_checked f rest →
  Pointer.read_attrs (Bytes.readlines rest) ∅ = Ok attrs →
  Pointer.from_file f = Ok p →
  Pointer._attrs p = attrs ∧ is_Some (attrs !! Key.OID) ∧ is_Some (attrs !! Key.SIZE).
Proof.
  intros (line & ok & Hrl & Hne & _) Hattrs Hp.
  apply from_file_inv in Hp as [[-> _]|Hacc].
  { simpl in Hrl. by simplify_eq. }
  destruct Hacc as (line' & rest' & ok' & attrs' & hex & sha & sz &
                    Hrl' & _ & _ & _ & Hattrs' & Hoid & _ & _ & Hsz & _ & ->).
  rewrite Hrl in Hrl'. injection Hrl' as <- <-.
  rewrite Hattrs in Hattrs'. injection Hattrs' as <-.
  simpl. split; [done|]. split; by eexists.
Qed.

End failure_facts.

(** ** Structural format errors *)

(** C4, the claim as stated fails.  An attribute line without a space makes
    the unpacking of the loop raise [ValueError]; and a first line whose key
    is not [version] does not stop the parser at all: [_verify_version]
    hands back a [PointerFormatException] object, which [from_file] tests
    for truth and finds true, so the file below is parsed like a valid one. *)
Lemma structural_errors_counterexample :
  Pointer.from_bytes
    (Bytes.unlines ["version https://git-lfs.github.com/spec/v1"; "oid"])
  = Raise ValueError ∧
  is_PointerFormatException ValueError = false ∧
  Pointer.from_bytes
    (Bytes.unlines ["Version 1"; "oid sha256:" +:+ example_hex; "size 12345"])
  = Ok (Pointer.mk
          (list_to_map [("oid", "sha256:" +:+ example_hex); ("size", "12345")])
          (Some example_digest) 12345).
Proof. split; [|split]; vm_compute; reflexivity. Qed.

(** What [_verify_version] answers on a first line that lacks the
    terminator, lacks a space or whose first token is not [version]: the
    exception object of its last statement, as in its third doctest. *)
Lemma verify_version_missing line :
  Bytes.endswith_nl line = false ∨
  Bytes.contains SP line = false ∨
  (∃ k v, Bytes.partition SP (Bytes.rstrip_nl line) = Some (k, v) ∧
          k ≠ Key.VERSION) →
  Pointer._verify_version line
  = Ok (PyExc (PointerFormatException "Missing version" None)).
Proof.
  intros H. unfold Pointer._verify_version.
  destruct H as [-> | [-> | (k & v & Hp & Hk)]]; [done|by rewrite andb_false_r|].
  destruct (_ && _); [|done].
  unfold Bytes.split1. rewrite Hp. simpl. by rewrite decide_False.
Qed.

(** C4 (amended): once the first line is past the version check, an
    attribute line without a space, which does not split into key and
    value, makes parsing fail with [ValueError], the error of the
    unpacking, which is not a [PointerFormatException]. *)
Theorem structural_errors (f rest l : bytes) :
  version_checked f rest →
  l ∈ Bytes.readlines rest →
  Bytes.contains SP l = false →
  Pointer.from_file f = Raise ValueError ∧
  is_PointerFormatException ValueError = false.
Proof.
  intros Hchk Hl Hsp. split; [|done].
  apply (from_file_attrs_Raise f rest); [done|].
  by apply (read_attrs_bad_line _ _ l).
Qed.

Lemma structural_errors_witness :
  Pointer.from_file
    (Bytes.unlines ["version https://git-lfs.github.com/spec/v1"; "oid"])
  = Raise ValueError ∧
  is_PointerFormatException ValueError = false.
Proof.
  apply (structural_errors _ (Bytes.unlines ["oid"]) (Bytes.unlines ["oid"])).
  - eexists _, _. vm_compute. repeat split. discriminate.
  - vm_compute. left.
  - reflexivity.
Defined.

(** ** Missing attributes *)

(** C5, the claim as stated fails: a version line and nothing else, and a
    file without a [size] line, fail with the [KeyError] of the dict lookup,
    which is not a [PointerFormatException]. *)
Lemma missing_attributes_counterexample :
  Pointer.from_bytes (Bytes.unlines ["version https://git-lfs.github.com/spec/v1"])
  = Raise (KeyError "oid") ∧
  Pointer.from_bytes
    (Bytes.unlines ["version https://git-lfs.github.com/spec/v1";
                    "oid sha256:" +:+ example_hex])
  = Raise (KeyError "size") ∧
  is_PointerFormatException (KeyError "oid") = false ∧
  is_PointerFormatException (KeyError "size") = false.
Proof. repeat split; vm_compute; reflexivity. Qed.

(** C5 (amended): on an input that is past the version check and whose
    attribute lines all split into key and value, a missing [oid] key makes
    parsing fail with [KeyError('oid')]; a missing [size] key never lets
    the parser return a record, and makes it fail with [KeyError('size')]
    when the [oid] attribute is a well-formed [sha256] digest. *)
Theorem missing_attributes (f rest : bytes) (attrs : gmap string string) :
  version_checked f rest →
  Pointer.read_attrs (Bytes.readlines rest) ∅ = Ok attrs →
  (attrs !! Key.OID = None →
     Pointer.from_file f = Raise (KeyError "oid")) ∧
  (attrs !! Key.SIZE = None →
     (∀ p, Pointer.from_file f ≠ Ok p) ∧
     (∀ hex sha, attrs !! Key.OID = Some ("sha256:" +:+ hex) →
                 String.length hex = 64%nat → unhexlify hex = Ok sha →
                 Pointer.from_file f = Raise (KeyError "size"))).
Proof.
  intros Hchk Hattrs. split; [by apply (from_file_no_oid f rest attrs)|].
  intros Hsz. split.
  - intros p Hp.
    destruct (accepted_attrs _ _ _ _ Hchk Hattrs Hp) as (_ & _ & [sz Hsz']).
    congruence.
  - intros hex sha Hoid Hlen Hu.
    by apply (from_file_no_size f rest attrs hex sha).
Qed.

Lemma missing_attributes_witness :
  Pointer.from_file (Bytes.unlines ["version https://git-lfs.github.com/spec/v1"])
  = Raise (KeyError "oid").
Proof.
  refine (proj1 (missing_attributes _ EmptyString ∅ _ _) _).
  - eexists _, _. vm_compute. repeat split. discriminate.
  - reflexivity.
  - reflexivity.
Defined.

(** ** Unsupported version *)

Lemma length_sapp (s t : bytes) :
  String.length (s +:+ t) = (String.length s + String.length t)%nat.
Proof. induction s as [|a s IH]; [done|]. rewrite sapp_cons. simpl. by rewrite IH. Qed.

(** C6, the claim as stated fails: the first line below ends with a
    terminator, contains a space, has the key [version] and a value that is
    no schema URI, but it is longer than the 256 bytes [readline] is allowed
    to return.  The version check sees a line without terminator, the parser
    goes on, and the rest of the line fails to unpack as an attribute. *)
Lemma unsupported_version_counterexample :
  Bytes.readlines long_version_file = [long_version_file] ∧
  Bytes.endswith_nl long_version_file = true ∧
  Bytes.partition SP (Bytes.rstrip_nl long_version_file)
  = Some ("version", long_version) ∧
  Version.verify long_version = false ∧
  String.length long_version_file = 258%nat ∧
  Pointer.from_bytes long_version_file = Raise ValueError ∧
  is_VersionUnsupportedException ValueError = false.
Proof. repeat split; vm_compute; reflexivity. Qed.

(** C6 (amended): when the first line is [version], a space, a value that
    is none of the three schema URIs, and the terminator, and is at most 256
    bytes long with its terminator, parsing fails with
    [VersionUnsupportedException], which is not a
    [PointerFormatException]. *)
Theorem unsupported_version (value rest : bytes) :
  Bytes.contains NL value = false →
  Version.verify value = false →
  (String.length ("version " +:+ value +:+ String NL EmptyString) ≤ 256)%nat →
  Pointer.from_bytes ("version " +:+ value +:+ String NL rest)
  = Raise (VersionUnsupportedException "Invalid version") ∧
  is_PointerFormatException (VersionUnsupportedException "Invalid version") = false.
Proof.
  intros Hnl Hver Hlen. split; [|done].
  unfold Pointer.from_bytes, Pointer.from_file.
  change ("version " +:+ value +:+ String NL rest)
    with (("version " +:+ value) +:+ String NL rest).
  rewrite readline_app_line.
  - change (("version " +:+ value) +:+ String NL EmptyString)
      with ("version " +:+ value +:+ String NL EmptyString).
    rewrite verify_version_line by done. by rewrite Hver.
  - done.
  - rewrite !length_sapp in *.
    change (String.length "version ") with 8%nat in *.
    change (String.length (String NL EmptyString)) with 1%nat in *. lia.
Qed.

(** The second doctest of [_verify_version], as a file. *)
Lemma unsupported_version_witness :
  Pointer.from_bytes ("version " +:+ "1" +:+ String NL "oid x")
  = Raise (VersionUnsupportedException "Invalid version") ∧
  is_PointerFormatException (VersionUnsupportedException "Invalid version") = false.
Proof.
  apply (unsupported_version "1" "oid x").
  - reflexivity.
  - reflexivity.
  - vm_compute. lia.
Defined.

(** ** Unsupported digest algorithm *)

(** C7: on an input that is past the version check and whose attribute
    lines all split into key and value, an [oid] value whose tag before the
    first colon is not [sha256] makes parsing fail with
    [PointerFormatException], which is not [VersionUnsupportedException]. *)
Theorem unsupported_digest (f rest : bytes) (attrs : gmap string string)
    (v tag hash : bytes) :
  version_checked f rest →
  Pointer.read_attrs (Bytes.readlines rest) ∅ = Ok attrs →
  attrs !! Key.OID = Some v →
  Bytes.partition COLON v = Some (tag, hash) →
  tag ≠ "sha256" →
  ∃ e, Pointer.from_file f = Raise e ∧
       e = PointerFormatException "Unsupported oid type %s" (Some tag) ∧
       is_PointerFormatException e = true ∧
       is_VersionUnsupportedException e = false.
Proof.
  intros Hchk Hattrs Hoid Hp Htag. eexists. split; [|done].
  by apply (from_file_unsupported f rest attrs v tag hash).
Qed.

Lemma unsupported_digest_witness :
  ∃ e, Pointer.from_file
         (Bytes.unlines ["version https://git-lfs.github.com/spec/v1";
                         "oid md5:d41d8cd98f00b204e9800998ecf8427e";
                         "size 12345"])
       = Raise e ∧
       e = PointerFormatException "Unsupported oid type %s" (Some "md5") ∧
       is_PointerFormatException e = true ∧
       is_VersionUnsupportedException e = false.
Proof.
  apply (unsupported_digest _
           (Bytes.unlines ["oid md5:d41d8cd98f00b204e9800998ecf8427e"; "size 12345"])
           (list_to_map [("oid", "md5:d41d8cd98f00b204e9800998ecf8427e");
                         ("size", "12345")])
           "md5:d41d8cd98f00b204e9800998ecf8427e"
           "md5" "d41d8cd98f00b204e9800998ecf8427e").
  - eexists _, _. vm_compute. repeat split. discriminate.
  - vm_compute. reflexivity.
  - vm_compute. reflexivity.
  - reflexivity.
  - discriminate.
Defined.

(** * Digest construction *)

Section construction_facts.

Implicit Types (s : str) (b : bytes).

Lemma is_hex_char_of_ascii a : is_hex_char (N_of_ascii a) = is_hex a.
Proof.
  unfold is_hex_char. rewrite ascii_N_embedding.
  destruct (is_hex a) eqn:E; [|by rewrite andb_false_r].
  by rewrite (is_hex_lt_128 a E).
Qed.

Lemma forallb_hex_of_ascii b : forallb is_hex_char (Str.of_ascii b) = all_hex b.
Proof.
  induction b as [|a b IH]; simpl; [done|].
  by rewrite is_hex_char_of_ascii, IH.
Qed.

Lemma encode_hex_chars s :
  forallb is_hex_char s = true → ∃ b, Str.encode_ascii s = Ok b.
Proof.
  induction s as [|c s IH]; simpl; [by eexists|].
  intros [[Hc _]%andb_true_iff Hs]%andb_true_iff. rewrite Hc.
  destruct (IH Hs) as [b ->]. by eexists.
Qed.

Lemma SHA256_init_str s b :
  Str.encode_ascii s = Ok b →
  SHA256.__init__ (PyStr s) = SHA256.__init__ (PyBytes b).
Proof. intros H. unfold SHA256.__init__. by rewrite H. Qed.

Lemma SHA256_init_str_Raise s e :
  Str.encode_ascii s = Raise e →
  SHA256.__init__ (PyStr s) = Raise UnicodeEncodeError.
Proof.
  intros H. unfold SHA256.__init__. rewrite H.
  by rewrite (encode_Raise _ _ H).
Qed.

Lemma SHA256_bytes_bad b :
  String.length b ≠ 64%nat ∨ all_hex b = false →
  ∃ e, SHA256.__init__ (PyBytes b) = Raise e ∧ is_ValueError e = true.
Proof.
  intros H. unfold SHA256.__init__. simpl.
  destruct (String.length b =? 64)%nat eqn:E; simpl; [|by eexists].
  apply Nat.eqb_eq in E. destruct H as [H|H]; [done|].
  rewrite (unhexlify_not_hex b H). by eexists.
Qed.

Lemma SHA256_bytes_good b :
  String.length b = 64%nat → all_hex b = true →
  ∃ sha, SHA256.__init__ (PyBytes b) = Ok (SHA256.mk b sha) ∧
         unhexlify b = Ok sha ∧ String.length sha = 32%nat.
Proof.
  intros Hlen Hh. destruct (unhexlify_hex b Hh) as [sha Hu].
  { by rewrite Hlen. }
  exists sha. split; [by apply SHA256_bytes_intro|]. split; [done|].
  apply unhexlify_Ok in Hu as [_ Hl]. lia.
Qed.

End construction_facts.

(** C8: building the digest from a text or byte string whose length is not
    64, or that holds a character that is no hex digit, fails with a
    [ValueError] (or a subclass of it), which is what the specification
    calls [MalformedDigest]; from 64 hex digits it succeeds, and then
    [hexdigest()] is the text as given and [digest()] its decoding, 32
    bytes long. *)
Theorem digest_construction (arg : pyobj) (cs : str) :
  chars_of arg = Some cs →
  (length cs ≠ 64%nat ∨ forallb is_hex_char cs = false →
     ∃ e, SHA256.__init__ arg = Raise e ∧
          is_ValueError e = true ∧ MalformedDigest e = true) ∧
  (length cs = 64%nat → forallb is_hex_char cs = true →
     ∃ o, SHA256.__init__ arg = Ok o ∧
          SHA256.hexdigest o = Ok cs ∧
          unhexlify (SHA256._hexsha o) = Ok (SHA256.digest o) ∧
          String.length (SHA256.digest o) = 32%nat).
Proof.
  intros Hcs.
  assert (∀ e, is_ValueError e = true → MalformedDigest e = true) as Hmal.
  { by intros []. }
  destruct arg as [| s | b | |]; try done; simpl in Hcs; injection Hcs as <-.
  - (* text *)
    destruct (Str.encode_ascii s) as [b|e] eqn:Henc.
    + rewrite (SHA256_init_str s b Henc).
      apply encode_Ok in Henc as <-.
      rewrite length_of_ascii, forallb_hex_of_ascii. split.
      * intros Hbad. destruct (SHA256_bytes_bad b Hbad) as (e & He & Hv). eauto.
      * intros Hlen Hh. destruct (SHA256_bytes_good b Hlen Hh) as (sha & Ho & Hu & Hl).
        exists (SHA256.mk b sha). split; [done|].
        split; [by apply decode_all_hex|]. done.
    + rewrite (SHA256_init_str_Raise s e Henc). split.
      * intros _. by eexists.
      * intros _ Hh. apply encode_hex_chars in Hh as [b Hb]. congruence.
  - (* bytes *)
    rewrite length_of_ascii, forallb_hex_of_ascii. split.
    + intros Hbad. destruct (SHA256_bytes_bad b Hbad) as (e & He & Hv). eauto.
    + intros Hlen Hh. destruct (SHA256_bytes_good b Hlen Hh) as (sha & Ho & Hu & Hl).
      exists (SHA256.mk b sha). split; [done|].
      split; [by apply decode_all_hex|]. done.
Qed.

(** The doctests of [SHA256.__init__]: 64 hex digits as text, and 40 as
    bytes. *)
Lemma digest_construction_witness :
  (∃ o, SHA256.__init__ (PyStr (Str.of_ascii example_hex)) = Ok o ∧
        SHA256.hexdigest o = Ok (Str.of_ascii example_hex) ∧
        unhexlify (SHA256._hexsha o) = Ok (SHA256.digest o) ∧
        String.length (SHA256.digest o) = 32%nat) ∧
  (∃ e, SHA256.__init__ (PyBytes "4d7a214614ab2935c943f9e0ff69d22eadbb8f32")
        = Raise e ∧
        is_ValueError e = true ∧ MalformedDigest e = true).
Proof.
  split.
  - apply (proj2 (digest_construction (PyStr (Str.of_ascii example_hex))
                    (Str.of_ascii example_hex) eq_refl)); reflexivity.
  - apply (proj1 (digest_construction
                    (PyBytes "4d7a214614ab2935c943f9e0ff69d22eadbb8f32")
                    (Str.of_ascii "4d7a214614ab2935c943f9e0ff69d22eadbb8f32")
                    eq_refl)).
    left. vm_compute. discriminate.
Defined.

(** * A [version] key among the attributes *)

Section attribute_facts.

Implicit Types (l k v : bytes) (lines : list bytes) (m : gmap string string).

Lemma read_attrs_app lines1 lines2 m :
  Pointer.read_attrs (lines1 ++ lines2) m
  = Pointer.read_attrs lines1 m ≫= Pointer.read_attrs lines2.
Proof.
  revert m. induction lines1 as [|l lines1 IH]; intros m; simpl; [done|].
  destruct (unpack2 _) as [[k v]|e]; simpl; [apply IH|done].
Qed.

Lemma read_attrs_other_keys lines m m' k :
  Forall (fun l => line_key l ≠ Some k) lines →
  Pointer.read_attrs lines m = Ok m' →
  m' !! k = m !! k.
Proof.
  intros H. revert m. induction H as [|l lines Hl _ IH]; intros m; simpl.
  - by intros [= <-].
  - unfold line_key in Hl. unfold Bytes.split1.
    destruct (Bytes.partition SP (Bytes.rstrip_nl l)) as [[k' v']|]; [|done].
    simpl in *. intros Hm'. rewrite (IH _ Hm'). apply lookup_insert_ne. congruence.
Qed.

(** The last line with a given key. *)
Lemma last_line_with_key lines l k :
  l ∈ lines → line_key l = Some k →
  ∃ pre l' post,
    lines = pre ++ l' :: post ∧ line_key l' = Some k ∧
    Forall (fun l'' => line_key l'' ≠ Some k) post.
Proof.
  induction lines as [|x lines IH] using rev_ind; [by intros ?%elem_of_nil|].
  intros Hl Hk. destruct (decide (line_key x = Some k)) as [Hx|Hx].
  - exists lines, x, []. by repeat split.
  - apply elem_of_app in Hl as [Hl|Hl%list_elem_of_singleton]; [|congruence].
    destruct (IH Hl Hk) as (pre & l' & post & -> & Hl' & Hpost).
    exists pre, l', (post ++ [x]). split; [by rewrite <-(assoc_L (++))|].
    split; [done|]. apply Forall_app. split; [done|]. by constructor.
Qed.

(** The dict holds, for a key, the value of the last line with that key. *)
Lemma read_attrs_last pre l post m m' k v :
  Pointer.read_attrs (pre ++ l :: post) m = Ok m' →
  line_key l = Some k → line_value l = Some v →
  Forall (fun l'' => line_key l'' ≠ Some k) post →
  m' !! k = Some v.
Proof.
  intros Hm' Hk Hv Hpost. rewrite read_attrs_app in Hm'.
  apply bind_Ok_inv in Hm' as (m1 & _ & Hm'). simpl in Hm'.
  unfold line_key, line_value in *. unfold Bytes.split1 in Hm'.
  destruct (Bytes.partition SP (Bytes.rstrip_nl l)) as [[k' v']|]; [|done].
  simpl in *. simplify_eq.
  rewrite (read_attrs_other_keys _ _ _ k Hpost Hm'). apply lookup_insert_eq.
Qed.

Lemma filter_key_none (items : list (bytes * bytes)) k :
  k ∉ items.*1 → filter (fun kv => kv.1 = k) items = [].
Proof.
  induction items as [|[k0 v0] items IH]; [done|].
  rewrite fmap_cons. intros [Hne Hk]%not_elem_of_cons.
  rewrite filter_cons_False; [by apply IH|]. simpl. by intros ->.
Qed.

Lemma filter_key_once (items : list (bytes * bytes)) k v :
  NoDup (items.*1) → (k, v) ∈ items →
  length (filter (fun kv => kv.1 = k) items) = 1%nat.
Proof.
  induction items as [|[k0 v0] items IH]; [by intros _ ?%elem_of_nil|].
  rewrite fmap_cons. intros [Hk0 Hnd]%NoDup_cons Hin.
  apply elem_of_cons in Hin as [[= <- <-]|Hin].
  - rewrite filter_cons_True by done. by rewrite filter_key_none.
  - rewrite filter_cons_False; [by apply IH|].
    simpl. intros ->. apply Hk0, list_elem_of_fmap. by exists (k, v).
Qed.

End attribute_facts.

(** C10: when an accepted input has an attribute line with the key
    [version], the attribute dict holds [version] with the value of the last
    such line, and the serialization has a line [version <that value>]
    among its sorted attribute lines, after the leading version line: two
    lines with the key [version] in all. *)
Theorem duplicate_version (f : bytes) (p : Pointer.t) (l : bytes) :
  l ∈ attr_lines f → line_key l = Some "version" →
  Pointer.from_file f = Ok p →
  ∃ pre l' post v out items,
    attr_lines f = pre ++ l' :: post ∧
    line_key l' = Some "version" ∧ line_value l' = Some v ∧
    Forall (fun l'' => line_key l'' ≠ Some "version") post ∧
    Pointer._attrs p !! "version" = Some v ∧
    Pointer.to_bytes p = Ok out ∧
    Bytes.readlines out
    = map (fun kv => (kv.1 +:+ " " +:+ kv.2) +:+ String NL EmptyString)
          (("version", "https://git-lfs.github.com/spec/v1") :: items) ∧
    StronglySorted key_lt items ∧
    ("version", v) ∈ items ∧
    length (filter (fun kv => kv.1 = "version")
              (("version", "https://git-lfs.github.com/spec/v1") :: items)) = 2%nat.
Proof.
  intros Hl Hk Hp. apply from_file_inv in Hp as [[-> _]|Hacc].
  { by apply elem_of_nil in Hl. }
  destruct (accepted_roundtrip _ _ Hacc)
    as (hex & sha & _ & _ & _ & _ & Hwf & Hout & _).
  destruct Hacc as (line & rest & ok & attrs & hex' & sha' & sz &
                    Hrl & _ & _ & _ & Hattrs & _ & _ & _ & _ & _ & Hpeq).
  unfold attr_lines in *. rewrite Hrl in *. simpl in Hl |- *.
  destruct (last_line_with_key _ _ _ Hl Hk) as (pre & l' & post & Hlines & Hk' & Hpost).
  assert (∃ v, line_value l' = Some v) as [v Hv].
  { unfold line_key, line_value in *.
    destruct (Bytes.partition SP (Bytes.rstrip_nl l')) as [[k' v']|]; [|done].
    by eexists. }
  rewrite Hlines in Hattrs.
  pose proof (read_attrs_last _ _ _ _ _ _ _ Hattrs Hk' Hv Hpost) as Hlook.
  set (items := sorted (map_to_list (stored_attrs p hex))) in *.
  destruct (sorted_items (stored_attrs p hex)) as [Hsorted Hmem].
  fold items in Hsorted, Hmem.
  assert (("version", v) ∈ items) as Hin.
  { apply Hmem. unfold stored_attrs. rewrite !lookup_insert_ne by done.
    by rewrite Hpeq. }
  exists pre, l', post, v, (pointer_file items), items.
  split; [done|]. split; [done|]. split; [done|]. split; [done|].
  split; [by rewrite Hpeq|]. split; [exact Hout|]. split; [|split; [done|split; [done|]]].
  - unfold pointer_file. rewrite readlines_unlines; [by rewrite map_map|].
    apply Forall_fmap, Forall_cons. split; [done|].
    apply Forall_forall. intros [k' v'] Hkv. apply item_line_no_NL, (Hwf k' v').
    by apply Hmem.
  - f_equal. apply (filter_key_once items "version" v); [|done].
    by apply StronglySorted_key_lt_NoDup.
Qed.

Lemma duplicate_version_witness :
  ∃ pre l' post v out items,
    attr_lines two_versions_file = pre ++ l' :: post ∧
    line_key l' = Some "version" ∧ line_value l' = Some v ∧
    Forall (fun l'' => line_key l'' ≠ Some "version") post ∧
    Pointer._attrs
      (Pointer.mk (list_to_map [("oid", "sha256:" +:+ example_hex);
                                ("size", "12345");
                                ("version", "https://hawser.github.com/spec/v1")])
         (Some example_digest) 12345) !! "version" = Some v ∧
    Pointer.to_bytes
      (Pointer.mk (list_to_map [("oid", "sha256:" +:+ example_hex);
                                ("size", "12345");
                                ("version", "https://hawser.github.com/spec/v1")])
         (Some example_digest) 12345) = Ok out ∧
    Bytes.readlines out
    = map (fun kv => (kv.1 +:+ " " +:+ kv.2) +:+ String NL EmptyString)
          (("version", "https://git-lfs.github.com/spec/v1") :: items) ∧
    StronglySorted key_lt items ∧
    ("version", v) ∈ items ∧
    length (filter (fun kv => kv.1 = "version")
              (("version", "https://git-lfs.github.com/spec/v1") :: items)) = 2%nat.
Proof.
  apply (duplicate_version two_versions_file _
           ("version https://hawser.github.com/spec/v1" +:+ String NL EmptyString)).
  - vm_compute. do 2 right. left.
  - reflexivity.
  - vm_compute. reflexivity.
Defined.

(** What the file of the witness serializes to. *)
Example two_versions_bytes :
  reserialize two_versions_file
  = Ok (Bytes.unlines ["version https://git-lfs.github.com/spec/v1";
                       "oid sha256:" +:+ example_hex;
                       "size 12345";
                       "version https://hawser.github.com/spec/v1"]).
Proof. vm_compute. reflexivity. Qed.

(** * Further properties of the parser *)

Section parser_facts.

Implicit Types (f rest l k v : bytes) (attrs m : gmap string string).
Implicit Types (p : Pointer.t) (e : exn).

Lemma from_file_checked f rest :
  version_checked f rest →
  Pointer.from_file f
  = Pointer.read_attrs (Bytes.readlines rest) ∅ ≫= finish_record.
Proof.
  intros (line & ok & Hrl & Hne & Hv & Hok).
  unfold Pointer.from_file. rewrite Hrl.
  destruct line as [|a line]; [done|].
  change (negb (truthy (PyBytes (String a line)))) with false. cbv iota.
  rewrite Hv. simpl. rewrite Hok. reflexivity.
Qed.

(** The first line [readline] hands over has its only terminator at its
    end. *)
Lemma readline_is_line n s : is_line (Bytes.readline n s).1.
Proof.
  revert s. induction n as [|n IH]; intros s; simpl.
  { exists EmptyString. split; [done|]. by right. }
  destruct s as [|a s]; simpl.
  { exists EmptyString. split; [done|]. by right. }
  destruct (Ascii.eqb_spec a NL) as [->|Hne]; simpl.
  { exists EmptyString. split; [done|]. by left. }
  specialize (IH s). destruct (Bytes.readline n s) as [l r]. simpl in *.
  destruct IH as (body & Hb & Hl). exists (String a body). split.
  - simpl. by destruct (Ascii.eqb_spec a NL).
  - destruct Hl as [->| ->]; [by left|by right].
Qed.

Lemma endswith_nl_no_NL s :
  Bytes.contains NL s = false → Bytes.endswith_nl s = false.
Proof.
  induction s as [|a s IH]; simpl; [done|].
  destruct (Ascii.eqb a NL) eqn:E; [done|]. intros H.
  destruct s; [done|]. by apply IH.
Qed.

(** The three answers of [_verify_version]. *)
Lemma verify_version_cases line :
  Pointer._verify_version line
    = Ok (PyExc (PointerFormatException "Missing version" None)) ∨
  ∃ value, Bytes.partition SP (Bytes.rstrip_nl line) = Some ("version", value) ∧
           Bytes.endswith_nl line = true ∧
           Pointer._verify_version line = Ok (PyBool (Version.verify value)).
Proof.
  unfold Pointer._verify_version.
  destruct (Bytes.endswith_nl line) eqn:Hnl; [|by left].
  destruct (Bytes.contains SP line) eqn:Hsp; [|by left]. simpl.
  apply contains_SP_rstrip_nl, contains_partition in Hsp as [[k v] Hp].
  unfold Bytes.split1. rewrite Hp. simpl.
  case_decide as Hk; [|by left]. subst k. right. by exists v.
Qed.

Lemma SHA256_bytes_Raise b e :
  SHA256.__init__ (PyBytes b) = Raise e → e = ValueError ∨ e = BinasciiError.
Proof.
  unfold SHA256.__init__. simpl.
  destruct (String.length b =? 64)%nat; simpl; [|by intros [= <-]; left].
  destruct (unhexlify b) as [sha|e'] eqn:E; simpl; [done|].
  intros [= <-]. right. by apply unhexlify_Raise in E.
Qed.

Lemma finish_record_Raise attrs e :
  finish_record attrs = Raise e →
  e = KeyError "oid" ∨ e = KeyError "size" ∨ e = ValueError ∨ e = BinasciiError ∨
  (∃ t, e = PointerFormatException "Unsupported oid type %s" (Some t)) ∨
  (∃ v, e = PointerFormatException "Expected integer size, got %s" (Some v)).
Proof.
  unfold finish_record.
  intros [H|([t h] & Hsplit & H)]%bind_Raise_inv.
  { apply bind_Raise_inv in H as [[_ ->]%getitem_Raise|(v & _ & H)]; [by left|].
    apply unpack2_Raise in H as ->. auto. }
  case_bool_decide as Hsup; simpl in H; [|injection H as <-; eauto 10].
  apply supported_digests_lookup in Hsup as ->.
  apply bind_Raise_inv in H as [H|(o & _ & H)].
  { apply bind_Raise_inv in H as [[Hs _]%getitem_Raise|(ctor & Hctor%getitem_Ok & H)].
    { by rewrite supported_digests_sha256 in Hs. }
    rewrite supported_digests_sha256 in Hctor. injection Hctor as <-.
    apply SHA256_bytes_Raise in H as [->| ->]; auto. }
  apply bind_Raise_inv in H as [[_ ->]%getitem_Raise|(sz & _ & H)]; [auto|].
  destruct (Bytes.isdigit sz); simpl in H; [|injection H as <-; eauto 10].
  apply bind_Raise_inv in H as [[_ ->]%getitem_Raise|(sz' & _ & H)]; [auto|done].
Qed.

End parser_facts.

Section parser_properties.

Implicit Types (f rest l k v : bytes) (attrs m : gmap string string).
Implicit Types (p : Pointer.t) (e : exn) (lines : list bytes).

Lemma version_checked_uri (u : Version.t) rest :
  version_checked ("version " +:+ Version.value u +:+ String NL rest) rest.
Proof.
  exists ("version " +:+ Version.value u +:+ String NL EmptyString), (PyBool true).
  split; [|split; [done|split; [|done]]].
  - change ("version " +:+ Version.value u +:+ String NL rest)
      with (("version " +:+ Version.value u) +:+ String NL rest).
    apply readline_app_line; destruct u; [done..| | |]; vm_compute; lia.
  - rewrite verify_version_line by by destruct u. by destruct u.
Qed.

(** Parsing the lines one by one. *)
Lemma read_attrs_omap lines m :
  Forall (fun l => is_Some (Bytes.partition SP (Bytes.rstrip_nl l))) lines →
  Pointer.read_attrs lines m
  = Ok (foldl store m
          (omap (fun l => Bytes.partition SP (Bytes.rstrip_nl l)) lines)).
Proof.
  intros H. revert m. induction H as [|l lines [[k v] Hl] _ IH]; intros m; [done|].
  simpl. unfold Bytes.split1. rewrite Hl. simpl. apply IH.
Qed.

Lemma line_keys_omap lines :
  Forall (fun l => is_Some (Bytes.partition SP (Bytes.rstrip_nl l))) lines →
  line_key <$> lines
  = Some <$> (omap (fun l => Bytes.partition SP (Bytes.rstrip_nl l)) lines).*1.
Proof.
  induction 1 as [|l lines [[k v] Hl] _ IH]; [done|].
  simpl. unfold line_key at 1. rewrite Hl. simpl. by f_equal.
Qed.

Lemma read_attrs_Permutation lines1 lines2 :
  lines1 ≡ₚ lines2 → NoDup (line_key <$> lines1) →
  Pointer.read_attrs lines1 ∅ = Pointer.read_attrs lines2 ∅.
Proof.
  intros Hperm Hnd.
  destruct (decide (Forall (fun l => is_Some (Bytes.partition SP (Bytes.rstrip_nl l)))
                      lines1)) as [Hall|Hbad].
  - assert (Forall (fun l => is_Some (Bytes.partition SP (Bytes.rstrip_nl l))) lines2)
      as Hall2 by by rewrite <-Hperm.
    rewrite !read_attrs_omap by done. f_equal.
    rewrite line_keys_omap in Hnd by done. apply NoDup_fmap in Hnd; [|apply _].
    rewrite !foldl_store_empty; [by apply list_to_map_proper, omap_Permutation| |done].
    by rewrite <-Hperm.
  - apply not_Forall_Exists, Exists_exists in Hbad as (l & Hl & Hnone);
      [|apply _]. simpl in Hnone.
    assert (Bytes.contains SP l = false) as Hsp.
    { destruct (Bytes.contains SP l) eqn:E; [|done].
      apply contains_SP_rstrip_nl, contains_partition in E. done. }
    rewrite (read_attrs_bad_line lines1 ∅ l), (read_attrs_bad_line lines2 ∅ l);
      [done|by rewrite <-Hperm|done..].
Qed.

Lemma read_attrs_last_value lines m m' k :
  Pointer.read_attrs lines m = Ok m' →
  m' !! k
  = foldl (fun acc l => if decide (line_key l = Some k) then line_value l else acc)
          (m !! k) lines.
Proof.
  revert m. induction lines as [|l lines IH]; intros m; simpl.
  { by intros [= <-]. }
  unfold Bytes.split1, line_key, line_value.
  destruct (Bytes.partition SP (Bytes.rstrip_nl l)) as [[k' v']|]; [|done].
  simpl. intros Hm'. rewrite (IH _ Hm'). f_equal.
  case_decide as Hk.
  - injection Hk as ->. apply lookup_insert_eq.
  - apply lookup_insert_ne. congruence.
Qed.

End parser_properties.

(** Where a failure of [from_file] comes from: the version check, the loop
    over the attribute lines, or the statements after it. *)
Lemma from_file_Raise_stage (f : bytes) (e : exn) :
  Pointer.from_file f = Raise e →
  e = VersionUnsupportedException "Invalid version" ∨
  ∃ rest, version_checked f rest ∧
          (Pointer.read_attrs (Bytes.readlines rest) ∅ = Raise e ∨
           ∃ attrs, Pointer.read_attrs (Bytes.readlines rest) ∅ = Ok attrs ∧
                    finish_record attrs = Raise e).
Proof.
  intros H.
  destruct (Bytes.readline 256 f) as [line rest] eqn:Hrl.
  destruct (verify_version_total line) as [ok Hv].
  destruct (decide (line = EmptyString)) as [->|Hne].
  { unfold Pointer.from_file in H. by rewrite Hrl in H. }
  destruct (truthy ok) eqn:Hok.
  - assert (version_checked f rest) as Hchk by by exists line, ok.
    right. exists rest. split; [done|].
    rewrite (from_file_checked f rest Hchk) in H.
    apply bind_Raise_inv in H as [H|(attrs & Hattrs & H)]; [by left|].
    right. by exists attrs.
  - unfold Pointer.from_file in H. rewrite Hrl in H.
    destruct line as [|a line]; [done|].
    change (negb (truthy (PyBytes (String a line)))) with false in H. cbv iota in H.
    rewrite Hv in H. simpl in H. rewrite Hok in H. simpl in H. injection H as <-.
    by left.
Qed.

(** X1: the exceptions that can leave [from_file] are the
    [VersionUnsupportedException] of the version check, the two
    [PointerFormatException]s for the oid type and the size, the [KeyError]
    of a missing [oid] or [size], and [ValueError] or [binascii.Error] from
    unpacking and from the digest constructor.  Nothing else is raised: in
    particular never the [PointerFormatException('Missing version')] that
    [_verify_version] builds. *)
Theorem from_file_errors (f : bytes) (e : exn) :
  Pointer.from_file f = Raise e →
  e = VersionUnsupportedException "Invalid version" ∨
  e = KeyError "oid" ∨ e = KeyError "size" ∨
  e = ValueError ∨ e = BinasciiError ∨
  (∃ t, e = PointerFormatException "Unsupported oid type %s" (Some t)) ∨
  (∃ v, e = PointerFormatException "Expected integer size, got %s" (Some v)).
Proof.
  intros [->|(rest & _ & [H|(attrs & _ & H)])]%from_file_Raise_stage.
  - by left.
  - apply read_attrs_Raise in H as ->. auto.
  - apply finish_record_Raise in H. tauto.
Qed.

Lemma from_file_errors_witness :
  KeyError "oid" = VersionUnsupportedException "Invalid version" ∨
  KeyError "oid" = KeyError "oid" ∨ KeyError "oid" = KeyError "size" ∨
  KeyError "oid" = ValueError ∨ KeyError "oid" = BinasciiError ∨
  (∃ t, KeyError "oid" = PointerFormatException "Unsupported oid type %s" (Some t)) ∨
  (∃ v, KeyError "oid"
        = PointerFormatException "Expected integer size, got %s" (Some v)).
Proof.
  apply (from_file_errors (Bytes.unlines ["Version 1"])).
  vm_compute. reflexivity.
Defined.

(** X2: [from_file] fails with [VersionUnsupportedException] exactly when
    the line [readline(256)] returns is [version], a space, a value that is
    none of the three schema URIs, and the terminator. *)
Theorem version_unsupported_iff (f : bytes) :
  (∃ msg, Pointer.from_file f = Raise (VersionUnsupportedException msg)) ↔
  (∃ value, (Bytes.readline 256 f).1 = "version " +:+ value +:+ String NL EmptyString ∧
            Bytes.contains NL value = false ∧
            Version.verify value = false).
Proof.
  destruct (Bytes.readline 256 f) as [line rest] eqn:Hrl. simpl. split.
  - intros [msg H].
    destruct (decide (line = EmptyString)) as [->|Hne].
    { unfold Pointer.from_file in H. by rewrite Hrl in H. }
    assert (∀ ok, Pointer._verify_version line = Ok ok → truthy ok = true → False)
      as Hnot.
    { intros ok Hv Hok.
      rewrite (from_file_checked f rest) in H by by exists line, ok.
      apply bind_Raise_inv in H as [H|(attrs & _ & H)].
      - by apply read_attrs_Raise in H.
      - apply finish_record_Raise in H.
        destruct H as [H|[H|[H|[H|[[t H]|[v H]]]]]]; discriminate H. }
    destruct (verify_version_cases line) as [Hv|(value & Hp & Hnl & Hv)].
    { by destruct (Hnot _ Hv). }
    destruct (Version.verify value) eqn:Hver; [by destruct (Hnot _ Hv)|].
    exists value. split; [|split; [|done]].
    + pose proof (readline_is_line 256 f) as (body & Hb & Hl).
      rewrite Hrl in Hl. simpl in Hl. destruct Hl as [->| ->].
      * rewrite rstrip_nl_line in Hp by done.
        apply partition_Some in Hp as [-> _]. by rewrite sapp_assoc.
      * by rewrite endswith_nl_no_NL in Hnl.
    + pose proof (readline_is_line 256 f) as Hl. rewrite Hrl in Hl.
      apply is_line_rstrip in Hl. simpl in Hl.
      apply partition_Some in Hp as [Hp _]. rewrite Hp in Hl.
      rewrite contains_app, contains_cons in Hl.
      apply orb_false_iff in Hl as [_ Hl]. by destruct (Ascii.eqb SP NL).
  - intros (value & -> & Hnl & Hver). exists "Invalid version".
    unfold Pointer.from_file. rewrite Hrl.
    rewrite verify_version_line by done. by rewrite Hver.
Qed.

(** The second doctest of [_verify_version], as a file. *)
Lemma version_unsupported_iff_witness :
  ∃ msg, Pointer.from_file (Bytes.unlines ["version 1"; "oid x"])
         = Raise (VersionUnsupportedException msg).
Proof.
  apply (proj2 (version_unsupported_iff (Bytes.unlines ["version 1"; "oid x"]))).
  exists "1". repeat split.
Defined.

(** X3: the parser keeps no trace of which of the recognized schema URIs
    the version line names: the same attribute lines under any two of them
    give the same result, record or exception. *)
Theorem version_line_forgotten (u1 u2 : Version.t) (rest : bytes) :
  Pointer.from_file ("version " +:+ Version.value u1 +:+ String NL rest)
  = Pointer.from_file ("version " +:+ Version.value u2 +:+ String NL rest).
Proof.
  by rewrite !(from_file_checked _ rest) by apply version_checked_uri.
Qed.

(** X4: the order of the attribute lines does not matter when no key comes
    twice: two inputs past the version check whose attribute lines are a
    permutation of each other give the same result, record or exception. *)
Theorem attribute_order_irrelevant (f1 f2 rest1 rest2 : bytes) :
  version_checked f1 rest1 → version_checked f2 rest2 →
  Bytes.readlines rest1 ≡ₚ Bytes.readlines rest2 →
  NoDup (line_key <$> Bytes.readlines rest1) →
  Pointer.from_file f1 = Pointer.from_file f2.
Proof.
  intros H1 H2 Hperm Hnd.
  rewrite (from_file_checked f1 rest1), (from_file_checked f2 rest2) by done.
  by rewrite (read_attrs_Permutation _ _ Hperm Hnd).
Qed.

Lemma attribute_order_irrelevant_witness :
  Pointer.from_file
    (Bytes.unlines ["version https://git-lfs.github.com/spec/v1";
                    "oid sha256:" +:+ example_hex; "size 12345"])
  = Pointer.from_file
      (Bytes.unlines ["version https://hawser.github.com/spec/v1";
                      "size 12345"; "oid sha256:" +:+ example_hex]).
Proof.
  apply (attribute_order_irrelevant _ _
           (Bytes.unlines ["oid sha256:" +:+ example_hex; "size 12345"])
           (Bytes.unlines ["size 12345"; "oid sha256:" +:+ example_hex])).
  - apply (version_checked_uri Version.V1).
  - apply (version_checked_uri Version.PRE).
  - vm_compute. apply perm_swap.
  - vm_compute. repeat constructor; rewrite ?list_elem_of_In; simpl; intuition discriminate.
Defined.

(** X5: a key that comes on several attribute lines is no error; for every
    key, the dict of the record holds the value of the last attribute line
    with that key, and nothing for a key no line has. *)
Theorem last_write_wins (f : bytes) (p : Pointer.t) (k : bytes) :
  f ≠ EmptyString → Pointer.from_file f = Ok p →
  Pointer._attrs p !! k = last_value k (attr_lines f).
Proof.
  intros Hf Hp. apply from_file_inv in Hp as [[-> _]|Hacc]; [done|].
  destruct Hacc as (line & rest & ok & attrs & hex & sha & sz &
                    Hrl & _ & _ & _ & Hattrs & _ & _ & _ & _ & _ & ->).
  unfold attr_lines, last_value. rewrite Hrl. simpl.
  by rewrite (read_attrs_last_value _ _ _ k Hattrs), lookup_empty.
Qed.

Lemma last_write_wins_witness :
  Pointer._attrs
    (Pointer.mk (list_to_map [("x", "2"); ("oid", "sha256:" +:+ example_hex);
                              ("size", "12345")])
       (Some example_digest) 12345) !! "x"
  = last_value "x"
      (attr_lines (Bytes.unlines ["version https://git-lfs.github.com/spec/v1";
                                  "x 1"; "oid sha256:" +:+ example_hex;
                                  "x 2"; "size 12345"])).
Proof.
  apply (last_write_wins
           (Bytes.unlines ["version https://git-lfs.github.com/spec/v1";
                           "x 1"; "oid sha256:" +:+ example_hex;
                           "x 2"; "size 12345"])).
  - discriminate.
  - vm_compute. reflexivity.
Defined.

Section finish_facts.

Implicit Types (f rest k v hex sha sz : bytes) (attrs m : gmap string string).
Implicit Types (p : Pointer.t).

(** With a well-formed [sha256] oid, what remains is the check of the
    size. *)
Lemma finish_record_oid attrs hex sha :
  attrs !! Key.OID = Some (oid_value hex) →
  String.length hex = 64%nat → unhexlify hex = Ok sha →
  finish_record attrs
  = (sz ← getitem attrs Key.SIZE;
     if negb (Bytes.isdigit sz) then
       Raise (PointerFormatException "Expected integer size, got %s" (Some sz))
     else
       sz ← getitem attrs Key.SIZE;
       Ok (Pointer.mk attrs (Some (SHA256.mk hex sha)) (Bytes.int sz))).
Proof.
  intros Hoid Hlen Hu. unfold finish_record.
  apply getitem_Ok in Hoid. rewrite Hoid. simpl.
  change (EmptyString +:+ hex) with hex.
  pose proof supported_digests_sha256 as Hs.
  rewrite bool_decide_true by (by rewrite Hs). simpl.
  apply getitem_Ok in Hs. rewrite Hs. simpl.
  by rewrite (SHA256_bytes_intro _ _ Hlen Hu).
Qed.

Lemma version_checked_pointer_file items :
  version_checked (pointer_file items) (Bytes.unlines (map item_line items)).
Proof.
  eexists _, _. split; [apply readline_pointer_file|]. split; [done|].
  split; [apply verify_version_item|done].
Qed.

Lemma stored_attrs_wf p hex sha :
  unhexlify hex = Ok sha →
  map_Forall (fun k v => wf_item (k, v)) (Pointer._attrs p) →
  map_Forall (fun k v => wf_item (k, v)) (stored_attrs p hex).
Proof.
  intros Hu Hwf. unfold stored_attrs.
  apply map_Forall_insert_2; [|apply map_Forall_insert_2; [|done]].
  - split; [done|]. split; [done|]. simpl. unfold oid_value.
    rewrite contains_app. simpl Bytes.contains at 1.
    apply unhexlify_Ok in Hu as [Hh _]. by rewrite (all_hex_no NL hex).
  - split; [done|]. split; [done|]. simpl. by apply format_d_no.
Qed.

(** Parsing what a record serializes to comes down to the statements after
    the loop, on the dict [__bytes__] left. *)
Lemma from_file_stored p hex sha :
  unhexlify hex = Ok sha →
  map_Forall (fun k v => wf_item (k, v)) (Pointer._attrs p) →
  Pointer.from_file (pointer_file (sorted (map_to_list (stored_attrs p hex))))
  = finish_record (stored_attrs p hex).
Proof.
  intros Hu Hwf.
  pose proof (stored_attrs_wf p hex sha Hu Hwf) as Hwf'.
  destruct (sorted_items (stored_attrs p hex)) as [Hsorted Hmem].
  rewrite (from_file_checked _ _ (version_checked_pointer_file _)).
  rewrite read_attrs_pointer_file.
  - simpl. by rewrite sorted_map_to_list_idemp.
  - apply Forall_forall. intros [k v] Hkv. apply Hmem in Hkv. by apply (Hwf' k v).
  - by apply StronglySorted_key_lt_NoDup.
Qed.

Lemma bytes_Ok p hex sha :
  Pointer.oid p = Some (SHA256.mk hex sha) →
  unhexlify hex = Ok sha →
  Pointer.__bytes__ p
  = Ok (stored p hex, pointer_file (sorted (map_to_list (stored_attrs p hex)))).
Proof.
  intros Ho Hu. unfold pointer_file. rewrite <-join_unlines by done.
  unfold Pointer.__bytes__. simpl.
  rewrite Ho. simpl.
  rewrite (bind_Ok _ _ _ (hexdigest_Ok _ _ Hu)).
  rewrite (bind_Ok _ _ (oid_value hex)).
  2:{ apply encode_oid_value. by apply unhexlify_Ok in Hu as [? _]. }
  unfold stored. by rewrite Ho.
Qed.

Lemma isdigit_format_d_neg z : z < 0 → Bytes.isdigit (Bytes.format_d z) = false.
Proof. intros Hz. destruct z as [|q|q]; [lia|lia|done]. Qed.

End finish_facts.

(** X6: a [size] value that is not made of decimal digits only (a sign, a
    blank, a dot, nothing at all) makes parsing fail with
    [PointerFormatException('Expected integer size, got ...')], once the
    input is past the version check, its lines split and its oid is a
    well-formed [sha256] digest. *)
Theorem non_numeric_size (f rest : bytes) (attrs : gmap string string)
    (hex sha sz : bytes) :
  version_checked f rest →
  Pointer.read_attrs (Bytes.readlines rest) ∅ = Ok attrs →
  attrs !! Key.OID = Some ("sha256:" +:+ hex) →
  String.length hex = 64%nat → unhexlify hex = Ok sha →
  attrs !! Key.SIZE = Some sz →
  Bytes.isdigit sz = false →
  Pointer.from_file f
  = Raise (PointerFormatException "Expected integer size, got %s" (Some sz)).
Proof.
  intros Hchk Hattrs Hoid Hlen Hu Hsz Hd.
  rewrite (from_file_checked f rest Hchk), Hattrs. simpl.
  rewrite (finish_record_oid attrs hex sha) by done.
  apply getitem_Ok in Hsz. rewrite Hsz. simpl. by rewrite Hd.
Qed.

Lemma non_numeric_size_witness :
  Pointer.from_file
    (Bytes.unlines ["version https://git-lfs.github.com/spec/v1";
                    "oid sha256:" +:+ example_hex; "size +12345"])
  = Raise (PointerFormatException "Expected integer size, got %s" (Some "+12345")).
Proof.
  apply (non_numeric_size _
           (Bytes.unlines ["oid sha256:" +:+ example_hex; "size +12345"])
           (list_to_map [("oid", "sha256:" +:+ example_hex); ("size", "+12345")])
           example_hex (SHA256._sha example_digest)).
  - apply (version_checked_uri Version.V1).
  - vm_compute. reflexivity.
  - vm_compute. reflexivity.
  - reflexivity.
  - vm_compute. reflexivity.
  - vm_compute. reflexivity.
  - reflexivity.
Defined.



(** X8: serialize, then parse.  A record whose digest was built by the
    constructor, whose size is not negative and whose attribute keys hold no
    space or terminator and values no terminator, serializes to bytes that
    parse back to a record with the same digest, the same size and the same
    attributes, next to the [oid] and [size] entries the serializer
    stored. *)
Theorem serialize_parse (p : Pointer.t) (o : SHA256.t) (arg : pyobj) :
  Pointer.oid p = Some o →
  SHA256.__init__ arg = Ok o →
  0 ≤ Pointer.size p →
  map_Forall (fun k v => wf_item (k, v)) (Pointer._attrs p) →
  ∃ out p',
    Pointer.to_bytes p = Ok out ∧
    Pointer.from_bytes out = Ok p' ∧
    Pointer.oid p' = Some o ∧
    Pointer.size p' = Pointer.size p ∧
    Pointer._attrs p' !! "oid" = Some ("sha256:" +:+ SHA256._hexsha o) ∧
    Pointer._attrs p' !! "size" = Some (Bytes.format_d (Pointer.size p)) ∧
    (∀ k, k ≠ "oid" → k ≠ "size" →
          Pointer._attrs p' !! k = Pointer._attrs p !! k).
Proof.
  intros Ho Hinit Hsize Hwf.
  destruct (SHA256_init_Ok _ _ Hinit) as (hex & sha & -> & Hlen & Hu).
  exists (pointer_file (sorted (map_to_list (stored_attrs p hex)))), (stored p hex).
  split; [by apply (to_bytes_Ok p hex sha)|]. split.
  - unfold Pointer.from_bytes. rewrite (from_file_stored p hex sha) by done.
    rewrite (finish_record_oid _ hex sha); [|apply lookup_insert_eq|done..].
    assert (stored_attrs p hex !! Key.SIZE = Some (Bytes.format_d (Pointer.size p)))
      as Hsz%getitem_Ok.
    { unfold stored_attrs. by rewrite lookup_insert_ne, lookup_insert_eq. }
    rewrite Hsz. simpl. rewrite format_d_isdigit by done. simpl.
    unfold stored. by rewrite int_format_d, Ho.
  - unfold stored, stored_attrs. simpl. split; [done|]. split; [done|].
    split; [apply lookup_insert_eq|].
    split; [by rewrite lookup_insert_ne, lookup_insert_eq|].
    intros k Hk1 Hk2. by rewrite !lookup_insert_ne.
Qed.

Lemma serialize_parse_witness :
  ∃ out p',
    Pointer.to_bytes example_record = Ok out ∧
    Pointer.from_bytes out = Ok p' ∧
    Pointer.oid p' = Some example_digest ∧
    Pointer.size p' = Pointer.size example_record ∧
    Pointer._attrs p' !! "oid" = Some ("sha256:" +:+ SHA256._hexsha example_digest) ∧
    Pointer._attrs p' !! "size"
    = Some (Bytes.format_d (Pointer.size example_record)) ∧
    (∀ k, k ≠ "oid" → k ≠ "size" →
          Pointer._attrs p' !! k = Pointer._attrs example_record !! k).
Proof.
  apply (serialize_parse example_record example_digest (PyBytes example_hex)).
  - reflexivity.
  - vm_compute. reflexivity.
  - vm_compute. discriminate.
  - intros k v Hkv. apply elem_of_list_to_map_2 in Hkv.
    apply list_elem_of_In in Hkv. simpl in Hkv.
    destruct Hkv as [H|[H|[H|[]]]]; injection H as <- <-; repeat split.
Defined.

(** X9: the serializer does not check the size.  A record with a digest
    built by the constructor, a negative size, and attribute keys without
    space or terminator and values without terminator still serializes, to
    a [size] line with a minus sign, and these bytes do not parse back:
    [from_bytes] fails on them with
    [PointerFormatException('Expected integer size, got ...')].  The
    condition on the attributes is needed, see [negative_size_masked]. *)
Theorem negative_size_not_parsed_back (p : Pointer.t) (o : SHA256.t) (arg : pyobj) :
  Pointer.oid p = Some o →
  SHA256.__init__ arg = Ok o →
  Pointer.size p < 0 →
  map_Forall (fun k v => wf_item (k, v)) (Pointer._attrs p) →
  ∃ out,
    Pointer.to_bytes p = Ok out ∧
    Pointer.from_bytes out
    = Raise (PointerFormatException "Expected integer size, got %s"
               (Some (Bytes.format_d (Pointer.size p)))).
Proof.
  intros Ho Hinit Hsize Hwf.
  destruct (SHA256_init_Ok _ _ Hinit) as (hex & sha & -> & Hlen & Hu).
  exists (pointer_file (sorted (map_to_list (stored_attrs p hex)))).
  split; [by apply (to_bytes_Ok p hex sha)|].
  unfold Pointer.from_bytes. rewrite (from_file_stored p hex sha) by done.
  rewrite (finish_record_oid _ hex sha); [|apply lookup_insert_eq|done..].
  assert (stored_attrs p hex !! Key.SIZE = Some (Bytes.format_d (Pointer.size p)))
    as Hsz%getitem_Ok.
  { unfold stored_attrs. by rewrite lookup_insert_ne, lookup_insert_eq. }
  rewrite Hsz. simpl. by rewrite isdigit_format_d_neg.
Qed.

Lemma negative_size_not_parsed_back_witness :
  ∃ out,
    Pointer.to_bytes
      (Pointer.mk (list_to_map [("zeta", "1"); ("size", "12345"); ("alpha", "2 3")])
         (Some example_digest) (-5)) = Ok out ∧
    Pointer.from_bytes out
    = Raise (PointerFormatException "Expected integer size, got %s"
               (Some (Bytes.format_d (-5)))).
Proof.
  apply (negative_size_not_parsed_back
           (Pointer.mk (list_to_map [("zeta", "1"); ("size", "12345"); ("alpha", "2 3")])
              (Some example_digest) (-5))
           example_digest (PyBytes example_hex)).
  - reflexivity.
  - vm_compute. reflexivity.
  - reflexivity.
  - intros k v Hkv. apply elem_of_list_to_map_2 in Hkv.
    apply list_elem_of_In in Hkv. simpl in Hkv.
    destruct Hkv as [H|[H|[H|[]]]]; injection H as <- <-; repeat split.
Defined.

(** Why the attributes must be well formed: a value with a terminator in it
    puts a line of its own into the output, and here that line is a second
    [size] line, which comes last and wins. *)
Example negative_size_masked :
  ∃ out p',
    Pointer.to_bytes
      (Pointer.mk (list_to_map [("z", "1" +:+ String NL "size 5")])
         (Some example_digest) (-5)) = Ok out ∧
    out = Bytes.unlines ["version https://git-lfs.github.com/spec/v1";
                         "oid sha256:" +:+ example_hex;
                         "size -5"; "z 1"; "size 5"] ∧
    Pointer.from_bytes out = Ok p' ∧ Pointer.size p' = 5.
Proof. eexists _, _. repeat split; vm_compute; reflexivity. Qed.

(** X10: serializing changes the record it is called on: afterwards its
    attribute dict holds the [oid] and [size] entries just written, the
    other entries and the fields being as before; and serializing the record
    again gives the same bytes and changes nothing more. *)
Theorem serialize_stores (p : Pointer.t) (o : SHA256.t) (arg : pyobj) :
  Pointer.oid p = Some o →
  SHA256.__init__ arg = Ok o →
  ∃ p' out,
    Pointer.__bytes__ p = Ok (p', out) ∧
    Pointer.__bytes__ p' = Ok (p', out) ∧
    Pointer.oid p' = Pointer.oid p ∧
    Pointer.size p' = Pointer.size p ∧
    Pointer._attrs p'
    = <["oid" := "sha256:" +:+ SHA256._hexsha o]>
        (<["size" := Bytes.format_d (Pointer.size p)]> (Pointer._attrs p)).
Proof.
  intros Ho Hinit.
  destruct (SHA256_init_Ok _ _ Hinit) as (hex & sha & -> & Hlen & Hu).
  exists (stored p hex), (pointer_file (sorted (map_to_list (stored_attrs p hex)))).
  split; [by apply bytes_Ok with sha|]. split; [|done].
  rewrite (bytes_Ok (stored p hex) hex sha) by done.
  rewrite stored_attrs_stored. do 2 f_equal.
  unfold stored at 1. simpl. by rewrite stored_attrs_stored.
Qed.

Lemma serialize_stores_witness :
  ∃ p' out,
    Pointer.__bytes__ example_record = Ok (p', out) ∧
    Pointer.__bytes__ p' = Ok (p', out) ∧
    Pointer.oid p' = Pointer.oid example_record ∧
    Pointer.size p' = Pointer.size example_record ∧
    Pointer._attrs p'
    = <["oid" := "sha256:" +:+ SHA256._hexsha example_digest]>
        (<["size" := Bytes.format_d (Pointer.size example_record)]>
           (Pointer._attrs example_record)).
Proof.
  apply (serialize_stores example_record example_digest (PyBytes example_hex)).
  - reflexivity.
  - vm_compute. reflexivity.
Defined.

(** X11: parsing and serializing in one go fails with [AttributeError]
    for the empty input and for no other: the record of the empty input has
    no digest to write, and every other input either fails in the parser,
    which never raises [AttributeError], or gives a record that
    serializes. *)
Theorem reserialize_AttributeError (B : bytes) :
  reserialize B = Raise AttributeError ↔ B = EmptyString.
Proof.
  split; [|by intros ->].
  unfold reserialize, Pointer.from_bytes.
  intros [H|(p & Hp & H)]%bind_Raise_inv.
  - apply from_file_Raise_stage in H as [H|(rest & _ & [H|(attrs & _ & H)])].
    + discriminate H.
    + by apply read_attrs_Raise in H.
    + apply finish_record_Raise in H.
      destruct H as [H|[H|[H|[H|[[t H]|[v H]]]]]]; discriminate H.
  - apply from_file_inv in Hp as [[-> _]|Hacc]; [done|].
    destruct (accepted_roundtrip _ _ Hacc)
      as (hex & sha & _ & _ & _ & _ & _ & Hout & _).
    simpl in Hout. congruence.
Qed.

Lemma reserialize_AttributeError_witness :
  reserialize EmptyString = Raise AttributeError.
Proof. apply (proj2 (reserialize_AttributeError EmptyString)). reflexivity. Defined.

(** X12: [_verify_version] never raises.  It answers with a boolean
    exactly when the line ends with a terminator and has [version] before
    its first space, and then the boolean tells whether what follows that
    space, terminator stripped, is one of the three schema URIs. *)
Theorem verify_version_answers (line : bytes) :
  ∃ o, Pointer._verify_version line = Ok o ∧
       ∀ b, o = PyBool b ↔
            Bytes.endswith_nl line = true ∧
            ∃ value, Bytes.partition SP (Bytes.rstrip_nl line)
                     = Some ("version", value) ∧
                     b = Version.verify value.
Proof.
  destruct (verify_version_cases line) as [Hv|(value & Hp & Hnl & Hv)].
  - eexists. split; [exact Hv|]. intros b. split; [done|].
    intros (Hnl & value & Hp & _). exfalso. revert Hv.
    unfold Pointer._verify_version. rewrite Hnl.
    assert (Bytes.contains SP line = true) as ->.
    { apply contains_rstrip_nl.
      pose proof (partition_Some _ _ _ _ Hp) as [-> _].
      by rewrite contains_app, (contains_cons SP SP value), Ascii.eqb_refl,
        orb_true_r. }
    unfold Bytes.split1. rewrite Hp. simpl. discriminate.
  - eexists. split; [exact Hv|]. intros b. split.
    + intros [= <-]. eauto.
    + intros (_ & value' & Hp' & ->). congruence.
Qed.

(** * The text forms *)

Section repr_facts.

Implicit Types (s cs : str) (b : bytes) (o : SHA256.t).

Lemma init_hexdigest (arg : pyobj) cs o :
  chars_of arg = Some cs → SHA256.__init__ arg = Ok o →
  SHA256.hexdigest o = Ok cs ∧ length cs = 64%nat.
Proof.
  intros Hcs Hinit.
  assert (∃ b, SHA256.__init__ (PyBytes b) = Ok o ∧ Str.of_ascii b = cs) as (b & Hb & <-).
  { destruct arg as [| s | b | |]; try done; simpl in Hcs; injection Hcs as <-.
    - destruct (Str.encode_ascii s) as [b|e] eqn:Henc.
      + exists b. rewrite <-(SHA256_init_str s b Henc). split; [done|].
        by apply encode_Ok.
      + by rewrite (SHA256_init_str_Raise s e Henc) in Hinit.
    - by exists b. }
  apply SHA256_bytes_Ok in Hb as (Hlen & sha & Hu & ->).
  rewrite length_of_ascii. split; [by apply hexdigest_Ok|done].
Qed.

End repr_facts.

(** X13: the [repr] of a digest built by the constructor never fails and
    shows the first seven characters of the text or bytes the digest was
    built from, between [<SHA256 ] and [>]: sixteen characters in all. *)
Theorem SHA256_repr (arg : pyobj) (cs : str) (o : SHA256.t) :
  chars_of arg = Some cs →
  SHA256.__init__ arg = Ok o →
  ∃ r, SHA256.__repr__ o = Ok r ∧
       r = Str.of_ascii "<SHA256 " ++ take 7 cs ++ Str.of_ascii ">" ∧
       length r = 16%nat.
Proof.
  intros Hcs Hinit. destruct (init_hexdigest arg cs o Hcs Hinit) as [Hhex Hlen].
  unfold SHA256.__repr__. rewrite Hhex. simpl. eexists. split; [done|].
  split; [done|]. rewrite !length_cons, length_app, length_take, Hlen.
  reflexivity.
Qed.

(** The first doctest of [SHA256.__init__]. *)
Lemma SHA256_repr_witness :
  ∃ r, SHA256.__repr__ example_digest = Ok r ∧
       r = Str.of_ascii "<SHA256 " ++ take 7 (Str.of_ascii example_hex)
           ++ Str.of_ascii ">" ∧
       length r = 16%nat.
Proof.
  apply (SHA256_repr (PyStr (Str.of_ascii example_hex))).
  - reflexivity.
  - vm_compute. reflexivity.
Defined.

(** X14: the [repr] of a record returned by the parser never fails.  For
    a size of zero, the empty input as well as a file with [size 0], it is
    [<Pointer V1 (size 0)>] and does not show the digest; otherwise it shows
    the first seven hex digits of the digest and the size in decimal.  It is
    always [V1], whatever the version line was. *)
Theorem Pointer_repr (B : bytes) (p : Pointer.t) :
  Pointer.from_bytes B = Ok p →
  ∃ r, Pointer.__repr__ p = Ok r ∧
       (Pointer.size p = 0 → r = Str.of_ascii "<Pointer V1 (size 0)>") ∧
       (Pointer.size p ≠ 0 →
          ∃ o hex, Pointer.oid p = Some o ∧ SHA256.hexdigest o = Ok hex ∧
                   r = Str.of_ascii "<Pointer V1 " ++ take 7 hex
                       ++ Str.of_ascii " (size "
                       ++ Str.of_ascii (Bytes.format_d (Pointer.size p))
                       ++ Str.of_ascii ")>").
Proof.
  intros Hp. unfold Pointer.__repr__. simpl.
  destruct (Z.eqb_spec (Pointer.size p) 0) as [Hz|Hnz]; simpl.
  - rewrite Hz. eexists. split; [done|]. split; [done|]. done.
  - apply from_file_inv in Hp as [[_ ->]|Hacc]; [done|].
    destruct Hacc as (line & rest & ok & attrs & hex & sha & sz &
                      _ & _ & _ & _ & _ & _ & _ & Hu & _ & _ & ->).
    simpl in *. rewrite (hexdigest_Ok hex sha Hu). simpl.
    eexists. split; [done|]. split; [done|]. intros _.
    exists (SHA256.mk hex sha), (Str.of_ascii hex).
    split; [done|]. split; [by apply hexdigest_Ok|done].
Qed.

(** The doctests of [from_bytes]. *)
Lemma Pointer_repr_witness :
  (∃ r, Pointer.__repr__
          (Pointer.mk (list_to_map [("oid", "sha256:" +:+ example_hex);
                                    ("size", "12345")])
             (Some example_digest) 12345) = Ok r ∧
        r = Str.of_ascii "<Pointer V1 4d7a214 (size 12345)>") ∧
  (∃ r, Pointer.__repr__ Pointer.__init__ = Ok r ∧
        r = Str.of_ascii "<Pointer V1 (size 0)>").
Proof.
  split.
  - destruct (Pointer_repr
                (Bytes.unlines ["version https://git-lfs.github.com/spec/v1";
                                "oid sha256:" +:+ example_hex; "size 12345"])
                (Pointer.mk (list_to_map [("oid", "sha256:" +:+ example_hex);
                                          ("size", "12345")])
                   (Some example_digest) 12345))
      as (r & Hr & _ & Hnz).
    { vm_compute. reflexivity. }
    exists r. split; [exact Hr|].
    destruct Hnz as (o & hex & Ho & Hhex & ->); [discriminate|].
    injection Ho as <-. vm_compute in Hhex. injection Hhex as <-.
    vm_compute. reflexivity.
  - destruct (Pointer_repr EmptyString Pointer.__init__ eq_refl) as (r & Hr & Hz & _).
    exists r. split; [exact Hr|]. by apply Hz.
Defined.

(** * The helpers of [utils.py] *)

(** X15: [ignore_missing_file] lets a block end normally exactly when the
    block ended normally or raised an [OSError] with [errno] 2 and, if a
    non-empty [filename] was given, with that very [filename]; [None] and the
    empty name stand for any file.  Everything else it passes on unchanged:
    other [errno]s, another file's name, exceptions that are no
    [OSError]. *)
Theorem ignore_missing_file_swallows (filename : option utils.path)
    (c : utils.completion) :
  (utils.ignore_missing_file filename c = utils.Normal ↔
     c = utils.Normal ∨
     ∃ efilename, c = utils.Raises (utils.OSError (Some 2) efilename) ∧
                  (utils.path_truthy filename = false ∨ efilename = filename)) ∧
  (utils.ignore_missing_file filename c ≠ utils.Normal →
     utils.ignore_missing_file filename c = c).
Proof.
  destruct c as [|[errno efilename|e]]; simpl.
  - split; [|done]. split; [by left|done].
  - case_bool_decide as Herrno; simpl.
    + subst errno. destruct (utils.path_truthy filename) eqn:Ht; simpl.
      * case_bool_decide as Hfn; simpl.
        -- split; [|done]. split; [|done]. intros _. right. eauto.
        -- split; [|done]. split; [done|].
           intros [|(efn & [= <-] & [|])]; done.
      * split; [|done]. split; [|done]. intros _. right. eauto.
    + split; [|done]. split; [done|].
      intros [|(efn & [= -> _] & _)]; done.
  - split; [|done]. split; [done|]. intros [|(efn & ? & _)]; done.
Qed.

(** [os.remove] reports another file than the one asked for. *)
Lemma ignore_missing_file_swallows_witness :
  utils.ignore_missing_file (Some (utils.StrPath (Str.of_ascii "a")))
    (utils.Raises (utils.OSError (Some 2) (Some (utils.StrPath (Str.of_ascii "b")))))
  = utils.Raises (utils.OSError (Some 2) (Some (utils.StrPath (Str.of_ascii "b")))).
Proof.
  apply (proj2 (ignore_missing_file_swallows _ _)). discriminate.
Defined.

(** X16: [force_link] does not mind a missing [link_name]: when
    [os.remove] succeeds or fails with [errno] 2, the outcome is that of
    [os.link] on the world [os.remove] left, with every failure of
    [os.link] passed on.  Any other failure of [os.remove] is passed on and
    [os.link] is not called. *)
Theorem force_link_outcome {World : Type}
    (os_remove : utils.path → World → utils.completion * World)
    (os_link : utils.path → utils.path → World → utils.completion * World)
    (source link_name : utils.path) (w w1 : World) (c1 : utils.completion) :
  os_remove link_name w = (c1, w1) →
  ((c1 = utils.Normal ∨ ∃ efilename, c1 = utils.Raises (utils.OSError (Some 2) efilename)) →
     utils.force_link os_remove os_link source link_name w
     = os_link source link_name w1) ∧
  (∀ e, c1 = utils.Raises e → (∀ efilename, e ≠ utils.OSError (Some 2) efilename) →
     utils.force_link os_remove os_link source link_name w = (utils.Raises e, w1)).
Proof.
  intros Hrm. unfold utils.force_link. rewrite Hrm. split.
  - intros [->|[efn ->]]; done.
  - intros e -> He. destruct e as [errno efn|e]; simpl; [|done].
    case_bool_decide as Herrno; simpl; [|done]. subst errno. by destruct (He efn).
Qed.

(** In the small world: the link name is missing, the source too. *)
Lemma force_link_outcome_witness :
  utils.force_link toy.remove toy.link
    (utils.StrPath (Str.of_ascii "a")) (utils.StrPath (Str.of_ascii "b"))
    (toy.mk [] (utils.StrPath (Str.of_ascii "/")))
  = toy.link (utils.StrPath (Str.of_ascii "a")) (utils.StrPath (Str.of_ascii "b"))
      (toy.mk [] (utils.StrPath (Str.of_ascii "/"))).
Proof.
  refine (proj1 (force_link_outcome toy.remove toy.link _ _ _ _ _ _) _).
  - reflexivity.
  - right. eexists. reflexivity.
Defined.

(** X17: [TempFile] runs the block and then the file's [__exit__], also
    when the block raised.  When [__exit__] succeeds or fails with [errno] 2
    because the file is gone, the block's outcome, result or exception, is
    the outcome of the whole; any other failure of [__exit__] takes its
    place. *)
Theorem TempFile_outcome {World File : Type}
    (NamedTemporaryFile : World → (utils.error + File) * World)
    (file_exit : File → World → utils.completion * World)
    (body : File → World → utils.completion * World)
    (w w1 w2 w3 : World) (f : File) (c c' : utils.completion) :
  NamedTemporaryFile w = (inr f, w1) →
  body f w1 = (c, w2) →
  file_exit f w2 = (c', w3) →
  ((c' = utils.Normal ∨ ∃ efilename, c' = utils.Raises (utils.OSError (Some 2) efilename)) →
     utils.TempFile NamedTemporaryFile file_exit body w = (c, w3)) ∧
  (∀ e, c' = utils.Raises e → (∀ efilename, e ≠ utils.OSError (Some 2) efilename) →
     utils.TempFile NamedTemporaryFile file_exit body w = (utils.Raises e, w3)).
Proof.
  intros Hnew Hbody Hexit. unfold utils.TempFile. rewrite Hnew, Hbody, Hexit. split.
  - intros [->|[efn ->]]; done.
  - intros e -> He. destruct e as [errno efn|e]; simpl; [|done].
    case_bool_decide as Herrno; simpl; [|done]. subst errno. by destruct (He efn).
Qed.

(** In the small world: the block moves the file away and raises. *)
Lemma TempFile_outcome_witness :
  utils.TempFile toy.mktemp toy.remove
    (fun f w => (utils.Raises (utils.OtherError ValueError), toy.drop f w))
    (toy.mk [] (utils.StrPath (Str.of_ascii "/")))
  = (utils.Raises (utils.OtherError ValueError),
     toy.mk [] (utils.StrPath (Str.of_ascii "/"))).
Proof.
  refine (proj1 (TempFile_outcome toy.mktemp toy.remove _ _ _ _ _ _ _ _ _ _ _) _).
  - reflexivity.
  - reflexivity.
  - vm_compute. reflexivity.
  - right. eexists. reflexivity.
Defined.

(** X18: [in_dir] goes back.  When the two [os.chdir] calls succeed, the
    outcome of the block, result or exception, is the outcome of the whole,
    and if [os.getcwd] reports the directory [os.chdir] was given, the
    current directory afterwards is the one recorded at entry. *)
Theorem in_dir_restores {World : Type}
    (os_getcwd : World → utils.error + utils.path)
    (os_path_abspath : utils.path → World → utils.error + utils.path)
    (os_chdir : utils.path → World → utils.completion * World)
    (dirpath cwd prev : utils.path) (body : World → utils.completion * World)
    (w w1 w2 w3 : World) (c : utils.completion) :
  (∀ u u', os_chdir prev u = (utils.Normal, u') → os_getcwd u' = inr prev) →
  os_getcwd w = inr cwd →
  os_path_abspath cwd w = inr prev →
  os_chdir dirpath w = (utils.Normal, w1) →
  body w1 = (c, w2) →
  os_chdir prev w2 = (utils.Normal, w3) →
  utils.in_dir os_getcwd os_path_abspath os_chdir dirpath body w = (c, w3) ∧
  os_getcwd w3 = inr prev.
Proof.
  intros Hcontract Hcwd Hprev Hin Hbody Hback. split; [|by eapply Hcontract].
  unfold utils.in_dir. by rewrite Hcwd, Hprev, Hin, Hbody, Hback.
Qed.

(** In the small world: the block changes directory again and raises. *)
Lemma in_dir_restores_witness :
  utils.in_dir toy.getcwd toy.abspath toy.chdir
    (utils.StrPath (Str.of_ascii "/repo"))
    (fun w => (utils.Raises (utils.OtherError ValueError),
               toy.mk (toy.names w) (utils.StrPath (Str.of_ascii "/elsewhere"))))
    (toy.mk [] (utils.StrPath (Str.of_ascii "/home")))
  = (utils.Raises (utils.OtherError ValueError),
     toy.mk [] (utils.StrPath (Str.of_ascii "/home"))) ∧
  toy.getcwd (toy.mk [] (utils.StrPath (Str.of_ascii "/home")))
  = inr (utils.StrPath (Str.of_ascii "/home")).
Proof.
  apply (in_dir_restores toy.getcwd toy.abspath toy.chdir
           (utils.StrPath (Str.of_ascii "/repo"))
           (utils.StrPath (Str.of_ascii "/home"))
           (utils.StrPath (Str.of_ascii "/home")) _
           (toy.mk [] (utils.StrPath (Str.of_ascii "/home")))
           (toy.mk [] (utils.StrPath (Str.of_ascii "/repo")))
           (toy.mk [] (utils.StrPath (Str.of_ascii "/elsewhere")))).
  - intros u u' [= <-]. reflexivity.
  - reflexivity.
  - reflexivity.
  - reflexivity.
  - reflexivity.
  - reflexivity.
Defined.

(** * Empty input *)

Section empty_facts.

Implicit Types (f rest l k v : bytes) (attrs m : gmap string string).

Lemma attr_lines_checked f rest :
  version_checked f rest → attr_lines f = Bytes.readlines rest.
Proof. intros (line & ok & Hrl & _). unfold attr_lines. by rewrite Hrl. Qed.

Lemma finish_record_no_oid attrs :
  attrs !! Key.OID = None → finish_record attrs = Raise (KeyError "oid").
Proof. intros H. unfold finish_record, getitem. by rewrite H. Qed.

(** Without a line of key [oid], the dict has no [oid]. *)
Lemma read_attrs_no_oid lines attrs :
  Forall (fun l => line_key l ≠ Some "oid") lines →
  Pointer.read_attrs lines ∅ = Ok attrs →
  attrs !! Key.OID = None.
Proof.
  intros Hno Hattrs.
  pose proof (read_attrs_other_keys lines ∅ attrs "oid" Hno Hattrs) as H.
  rewrite lookup_empty in H. exact H.
Qed.

End empty_facts.

(** C9: the empty stream parses to the default record (primary version,
    size 0, no digest) without raising, and it is the only input that may
    lack an [oid]: every non-empty input without an attribute line of key
    [oid] fails, with [VersionUnsupportedException] from the version check,
    [ValueError] from a line that does not split, or else [KeyError('oid')];
    and a record returned for a non-empty input has a digest and comes from
    an input with an [oid] line. *)
Theorem empty_input :
  Pointer.from_bytes EmptyString = Ok Pointer.__init__ ∧
  Version.value Pointer.version = "https://git-lfs.github.com/spec/v1" ∧
  Pointer.size Pointer.__init__ = 0 ∧
  Pointer.oid Pointer.__init__ = None ∧
  (∀ B, B ≠ EmptyString →
        Forall (fun l => line_key l ≠ Some "oid") (attr_lines B) →
        ∃ e, Pointer.from_bytes B = Raise e ∧
             (e = VersionUnsupportedException "Invalid version" ∨
              e = ValueError ∨ e = KeyError "oid")) ∧
  (∀ B p, B ≠ EmptyString → Pointer.from_bytes B = Ok p →
          is_Some (Pointer.oid p) ∧
          is_Some (Pointer._attrs p !! Key.OID) ∧
          ∃ l, l ∈ attr_lines B ∧ line_key l = Some "oid").
Proof.
  do 4 (split; [reflexivity|]).
  assert (∀ B p, B ≠ EmptyString →
            Forall (fun l => line_key l ≠ Some "oid") (attr_lines B) →
            Pointer.from_file B = Ok p → False) as Hnever.
  { intros B p HB Hno Hp. apply from_file_inv in Hp as [[-> _]|Hacc]; [done|].
    destruct Hacc as (line & rest & ok & attrs & hex & sha & sz &
                      Hrl & _ & _ & _ & Hattrs & Hoid & _).
    unfold attr_lines in Hno. rewrite Hrl in Hno. simpl in Hno.
    by rewrite (read_attrs_no_oid _ _ Hno Hattrs) in Hoid. }
  split.
  - intros B HB Hno. unfold Pointer.from_bytes.
    destruct (Pointer.from_file B) as [p|e] eqn:Hp.
    { by destruct (Hnever B p). }
    exists e. split; [done|].
    apply from_file_Raise_stage in Hp as [->|(rest & Hchk & [H|(attrs & Hattrs & H)])].
    + by left.
    + apply read_attrs_Raise in H as ->. auto.
    + rewrite (attr_lines_checked B rest Hchk) in Hno.
      rewrite finish_record_no_oid in H by by apply (read_attrs_no_oid _ _ Hno).
      injection H as <-. auto.
  - intros B p HB Hp. unfold Pointer.from_bytes in Hp.
    destruct (decide (Forall (fun l => line_key l ≠ Some "oid") (attr_lines B)))
      as [Hno|Hsome].
    { by destruct (Hnever B p). }
    apply not_Forall_Exists, Exists_exists in Hsome as (l & Hl & Hkey); [|apply _].
    apply from_file_inv in Hp as [[-> _]|Hacc]; [done|].
    destruct Hacc as (line & rest & ok & attrs & hex & sha & sz &
                      _ & _ & _ & _ & _ & Hoid & _ & _ & _ & _ & ->).
    split; [by eexists|]. split; [by eexists|].
    exists l. split; [done|]. simpl in Hkey. by apply dec_stable.
Qed.

(** A version line and nothing else, and the same with attribute lines that
    have no [oid] among them. *)
Lemma empty_input_witness :
  (∃ e, Pointer.from_bytes
          (Bytes.unlines ["version https://git-lfs.github.com/spec/v1"])
        = Raise e ∧
        (e = VersionUnsupportedException "Invalid version" ∨
         e = ValueError ∨ e = KeyError "oid")) ∧
  (∃ e, Pointer.from_bytes
          (Bytes.unlines ["version https://git-lfs.github.com/spec/v1";
                          "size 12345"; "x y"])
        = Raise e ∧
        (e = VersionUnsupportedException "Invalid version" ∨
         e = ValueError ∨ e = KeyError "oid")).
Proof.
  split.
  - apply (proj1 (proj2 (proj2 (proj2 (proj2 empty_input))))
             (Bytes.unlines ["version https://git-lfs.github.com/spec/v1"])).
    + discriminate.
    + vm_compute. constructor.
  - apply (proj1 (proj2 (proj2 (proj2 (proj2 empty_input))))
             (Bytes.unlines ["version https://git-lfs.github.com/spec/v1";
                             "size 12345"; "x y"])).
    + discriminate.
    + vm_compute. repeat constructor; discriminate.
Defined.
